(** * E-library backend: the book controller

    A shallow embedding of [src/book/bookController.ts] (the handlers
    [createBook], [updateBook] and [deleteBook]) and the properties of its
    upload-then-persist workflow.

    The handlers are sequential [async] functions that talk to three
    collaborators: the local file system ([fs.existsSync],
    [fs.promises.unlink]), the remote object store
    ([cloudinary.uploader.upload] / [destroy]) and the catalog store
    ([bookModel.create] / [findOne] / [findOneAndUpdate] / [deleteOne]).
    They are embedded in a small state-and-exception monad: the state is the
    world (files on disk, catalog contents, the trace of collaborator calls
    made so far); a computation yields a value, throws a JavaScript error, or
    completes the request early ([return next(...)]).

    What the collaborators do is not decided by the controller: an
    environment says which calls throw (it may depend on the calls made so
    far) and what uploads and record creations return. One request runs at a
    time: files appear or vanish only through the handler's own [unlink]s.
    Console output is left out. *)

From Stdlib Require Import ZArith Ascii String List.
From stdpp Require Import base option list strings gmap.

Local Open Scope string_scope.
Local Open Scope Z_scope.

(** ** JavaScript values used by the controller *)

Module Js.

(** [s.split(sep)] for a one-character separator. *)
Fixpoint split (sep : ascii) (s : string) : list string :=
  match s with
  | EmptyString => [EmptyString]
  | String c s' =>
      if Ascii.eqb c sep then EmptyString :: split sep s'
      else match split sep s' with
           | [] => [String c EmptyString]
           | x :: xs => String c x :: xs
           end
  end.

(** [arr.at(i)]: negative indices count from the end, out of range is
    [undefined]. *)
Definition at_ {A} (l : list A) (i : Z) : option A :=
  let len := Z.of_nat (length l) in
  let k := if i <? 0 then len + i else i in
  if (k <? 0) || (len <=? k) then None else nth_error l (Z.to_nat k).

(** [s.startsWith(pat)] *)
Definition startsWith (s pat : string) : bool := String.prefix pat s.

(** [s.includes(pat)] *)
Fixpoint includes (s pat : string) : bool :=
  String.prefix pat s ||
  match s with
  | EmptyString => false
  | String _ s' => includes s' pat
  end.

(** String conversion of a possibly [undefined] string, as performed by
    [+] with a string operand. *)
Definition to_str (v : option string) : string :=
  match v with
  | Some s => s
  | None => "undefined"
  end.

(** Truthiness of a possibly [undefined] string: [undefined] and [""] are
    falsy. *)
Definition truthy (v : option string) : bool :=
  match v with
  | Some s => negb (String.eqb s "")
  | None => false
  end.

(** [a || b] on strings. *)
Definition or_else (a b : string) : string :=
  if String.eqb a "" then b else a.

(** A thrown value, with the three properties the controller inspects.
    Thrown values are objects ([Error] instances or the plain objects the
    object-store client rejects with); a property that is absent is
    [undefined]. *)
Record Error := mkError {
  message : option string;
  name : option string;
  code : option string
}.

End Js.

(** ** Data model *)

(** An uploaded file as described by the multipart middleware. *)
Record MulterFile := {
  filename : string;
  mimetype : string
}.

(** [req.files], indexed by field name. *)
Record Files := {
  coverImage : option (list MulterFile);
  file : option (list MulterFile)
}.

(** The parts of the request that the handlers read. *)
Record Request := {
  body_title : option string;
  body_genre : option string;
  body_description : option string;
  req_files : option Files;
  userId : string;
  params_bookId : string
}.

(** A catalog record; [book_author] is [book.author.toString()]. *)
Record Book := {
  book_id : string;
  book_title : string;
  book_description : string;
  book_genre : string;
  book_author : string;
  book_coverImage : string;
  book_file : string
}.

(** Argument of [bookModel.create]. *)
Record BookFields := {
  new_title : string;
  new_description : string;
  new_genre : string;
  new_author : string;
  new_coverImage : string;
  new_file : string
}.

(** Second argument of [bookModel.findOneAndUpdate]. *)
Record BookUpdate := {
  upd_title : option string;
  upd_description : option string;
  upd_genre : option string;
  upd_coverImage : string;
  upd_file : string
}.

(** Options of [cloudinary.uploader.upload]. *)
Record UploadOptions := {
  resource_type : option string;
  filename_override : string;
  folder : string;
  format : option string
}.

(** Calls made to the collaborators. *)
Inductive Event :=
| ExistsSync (path : string)
| Unlink (path : string)
| Upload (path : string) (opts : UploadOptions)
| Destroy (public_id : string) (rtype : option string)
| Create (fields : BookFields)
| FindOne (id : string)
| FindOneAndUpdate (id : string) (upd : BookUpdate)
| DeleteOne (id : string).

(** Body of a response. *)
Inductive Body :=
| IdBody (id : string)
| BookBody (b : option Book).

(** How a request is completed. *)
Inductive Reply :=
| NextError (status : nat) (msg : string)
| StatusJson (status : nat) (body : Body)
| Json (body : Body)
| SendStatus (status : nat).

(** The world a handler runs in. *)
Record World := mkWorld {
  fs : gset string;
  db : gmap string Book;
  trace : list Event
}.

(** Behaviour of the collaborators that the controller does not determine:
    which calls fail (given the calls made so far) and with which error, the
    URL the object store assigns to an upload, the identifier the catalog
    assigns to a new record, how the catalog applies an update document, and
    [path.resolve] with the module's [__dirname]. *)
Record Env := {
  fault : list Event -> Event -> option Js.Error;
  secure_url : list Event -> string -> UploadOptions -> string;
  new_id : list Event -> BookFields -> string;
  apply_update : BookUpdate -> Book -> Book;
  path_resolve : list string -> string;
  dirname : string
}.

(** ** The monad *)

Inductive Outcome (A : Type) :=
| Val (a : A)
| Exc (e : Js.Error)
| Done (r : Reply).
Arguments Val {A} a.
Arguments Exc {A} e.
Arguments Done {A} r.

Definition M (A : Type) : Type := World -> Outcome A * World.

Definition ret {A} (a : A) : M A := fun w => (Val a, w).

Definition bind {A B} (m : M A) (k : A -> M B) : M B :=
  fun w =>
    match m w with
    | (Val a, w') => k a w'
    | (Exc e, w') => (Exc e, w')
    | (Done r, w') => (Done r, w')
    end.

(** [return next(createHttpError(status, msg))] and the other ways of
    completing the request. *)
Definition finish {A} (r : Reply) : M A := fun w => (Done r, w).

(** [try { body } catch (err) { handler }]: only thrown errors reach the
    handler, a [return] inside [body] leaves the function. *)
Definition try_catch {A} (body : M A) (handler : Js.Error -> M A) : M A :=
  fun w =>
    match body w with
    | (Exc e, w') => handler e w'
    | r => r
    end.

#[global] Instance M_ret : MRet M := @ret.
#[global] Instance M_bind : MBind M := fun A B k m => bind m k.

Definition when_ (b : bool) (m : M unit) : M unit :=
  if b then m else ret tt.

Definition record (e : Event) (w : World) : World :=
  mkWorld (fs w) (db w) (trace w ++ [e]).

(** ** The collaborators *)

Section Controller.

Context (env : Env).

(** [fs.existsSync(path)] *)
Definition existsSync (path : string) : M bool :=
  fun w => (Val (bool_decide (path ∈ fs w)), record (ExistsSync path) w).

Definition enoent (path : string) : Js.Error :=
  Js.mkError
    (Some ("ENOENT: no such file or directory, unlink '" +:+ path +:+ "'"))
    (Some "Error") (Some "ENOENT").

(** [await fs.promises.unlink(path)] *)
Definition unlink (path : string) : M unit :=
  fun w =>
    let w1 := record (Unlink path) w in
    if bool_decide (path ∈ fs w) then
      match fault env (trace w) (Unlink path) with
      | Some e => (Exc e, w1)
      | None => (Val tt, mkWorld (fs w ∖ {[path]}) (db w) (trace w1))
      end
    else (Exc (enoent path), w1).

(** [await cloudinary.uploader.upload(path, opts)]; the value is the
    result's [secure_url]. *)
Definition cloudinary_upload (path : string) (opts : UploadOptions)
  : M string :=
  fun w =>
    let w1 := record (Upload path opts) w in
    match fault env (trace w) (Upload path opts) with
    | Some e => (Exc e, w1)
    | None => (Val (secure_url env (trace w) path opts), w1)
    end.

(** [await cloudinary.uploader.destroy(publicId, { resource_type })] *)
Definition cloudinary_destroy (public_id : string) (rtype : option string)
  : M unit :=
  fun w =>
    let w1 := record (Destroy public_id rtype) w in
    match fault env (trace w) (Destroy public_id rtype) with
    | Some e => (Exc e, w1)
    | None => (Val tt, w1)
    end.

Definition mkBook (id : string) (f : BookFields) : Book :=
  {| book_id := id;
     book_title := new_title f;
     book_description := new_description f;
     book_genre := new_genre f;
     book_author := new_author f;
     book_coverImage := new_coverImage f;
     book_file := new_file f |}.

(** [await bookModel.create(fields)] *)
Definition bookModel_create (f : BookFields) : M Book :=
  fun w =>
    let w1 := record (Create f) w in
    match fault env (trace w) (Create f) with
    | Some e => (Exc e, w1)
    | None =>
        let b := mkBook (new_id env (trace w) f) f in
        (Val b, mkWorld (fs w) (<[book_id b := b]> (db w)) (trace w1))
    end.

(** [await bookModel.findOne({ _id: id })] *)
Definition bookModel_findOne (id : string) : M (option Book) :=
  fun w =>
    let w1 := record (FindOne id) w in
    match fault env (trace w) (FindOne id) with
    | Some e => (Exc e, w1)
    | None => (Val (db w !! id), w1)
    end.

(** [await bookModel.findOneAndUpdate({ _id: id }, upd, { new: true })] *)
Definition bookModel_findOneAndUpdate (id : string) (upd : BookUpdate)
  : M (option Book) :=
  fun w =>
    let w1 := record (FindOneAndUpdate id upd) w in
    match fault env (trace w) (FindOneAndUpdate id upd) with
    | Some e => (Exc e, w1)
    | None =>
        match db w !! id with
        | Some b =>
            let b' := apply_update env upd b in
            (Val (Some b'), mkWorld (fs w) (<[id := b']> (db w)) (trace w1))
        | None => (Val None, w1)
        end
    end.

(** [await bookModel.deleteOne({ _id: id })] *)
Definition bookModel_deleteOne (id : string) : M unit :=
  fun w =>
    let w1 := record (DeleteOne id) w in
    match fault env (trace w) (DeleteOne id) with
    | Some e => (Exc e, w1)
    | None => (Val tt, mkWorld (fs w) (delete id (db w)) (trace w1))
    end.

(** [next(createHttpError(status, msg))] *)
Definition next {A} (status : nat) (msg : string) : M A :=
  finish (NextError status msg).

(** [files && files.<field> && files.<field>[0]] *)
Definition first_file (files : option Files)
    (field : Files -> option (list MulterFile)) : option MulterFile :=
  fields ← files; l ← field fields; head l.

(** [path.resolve(__dirname, "../../public/data/uploads", name)] *)
Definition createPath (name : string) : string :=
  path_resolve env [dirname env; "../../public/data/uploads"; name].

(** [path.resolve(__dirname, "../../public/data/uploads/" + name)] *)
Definition updatePath (name : string) : string :=
  path_resolve env [dirname env; "../../public/data/uploads/" +:+ name].

(** Upload options for a cover image: the format is the last ["/"]-separated
    piece of its content type. *)
Definition coverOptions (f : MulterFile) : UploadOptions :=
  {| resource_type := None;
     filename_override := filename f;
     folder := "book-covers";
     format := Js.at_ (Js.split "/" (mimetype f)) (-1) |}.

(** Upload options for a book file. *)
Definition bookOptions (f : MulterFile) : UploadOptions :=
  {| resource_type := Some "raw";
     filename_override := filename f;
     folder := "book-pdfs";
     format := Some "pdf" |}.

(** ** [createBook] *)

(** The [try] block (lines 76-125). It runs after the three body fields have
    been found truthy, so [Js.to_str] gives them back unchanged. *)
Definition createBook_try (req : Request) (coverImageFile bookFile : MulterFile)
  : M unit :=
  let filePath := createPath (filename coverImageFile) in
  let bookFilePath := createPath (filename bookFile) in
  uploadResult ← cloudinary_upload filePath (coverOptions coverImageFile);
  bookFileUploadResult ← cloudinary_upload bookFilePath (bookOptions bookFile);
  newBook ←
    bookModel_create
      {| new_title := Js.to_str (body_title req);
         new_description := Js.to_str (body_description req);
         new_genre := Js.to_str (body_genre req);
         new_author := userId req;
         new_coverImage := uploadResult;
         new_file := bookFileUploadResult |};
  try_catch
    (unlink filePath;;
     unlink bookFilePath)
    (fun unlinkError => ret tt);;
  finish (StatusJson 201 (IdBody (book_id newBook))).

(** "Clean up temp files on error" (lines 132-145). *)
Definition createBook_cleanup (filePath bookFilePath : string) : M unit :=
  try_catch
    (coverStill ← existsSync filePath;
     when_ coverStill (unlink filePath);;
     bookStill ← existsSync bookFilePath;
     when_ bookStill (unlink bookFilePath))
    (fun cleanupError => ret tt).

(** "Provide more specific error messages" (lines 147-169). *)
Definition createBook_surface (err : Js.Error) : M unit :=
  if Js.truthy (Js.message err)
     && Js.includes (Js.to_str (Js.message err)) "cloudinary"
  then next 500 "Error uploading files to cloud storage"
  else if bool_decide (Js.name err = Some "ValidationError")
  then next 400 ("Invalid book data: " +:+ Js.to_str (Js.message err))
  else if bool_decide (Js.code err = Some "ENOENT")
  then next 400 "File not found on server"
  else next 500
         ("Error while uploading the files: " +:+ Js.to_str (Js.message err)).

(** The [catch (err)] block (lines 126-170). *)
Definition createBook_catch (filePath bookFilePath : string) (err : Js.Error)
  : M unit :=
  createBook_cleanup filePath bookFilePath;;
  createBook_surface err.

Definition createBook (req : Request) : M unit :=
  let title := body_title req in
  let genre := body_genre req in
  let description := body_description req in
  if negb (Js.truthy title) || negb (Js.truthy genre)
     || negb (Js.truthy description)
  then next 400 "Title, genre, and description are required"
  else
  let files := req_files req in
  match first_file files coverImage with
  | None => next 400 "Cover image is required"
  | Some coverImageFile =>
  match first_file files file with
  | None => next 400 "Book file is required"
  | Some bookFile =>
  if negb (Js.startsWith (mimetype coverImageFile) "image/")
  then next 400 "Cover image must be an image file"
  else
  if negb (String.eqb (mimetype bookFile) "application/pdf")
  then next 400 "Book file must be a PDF"
  else
  let filePath := createPath (filename coverImageFile) in
  let bookFilePath := createPath (filename bookFile) in
  coverOnDisk ← existsSync filePath;
  if negb coverOnDisk
  then next 400 "Cover image file not found on server"
  else
  bookOnDisk ← existsSync bookFilePath;
  if negb bookOnDisk
  then next 400 "Book file not found on server"
  else
  try_catch
    (createBook_try req coverImageFile bookFile)
    (createBook_catch filePath bookFilePath)
  end end.

(** ** [updateBook] *)

(** The block "Handle cover image update" (lines 195-239); its value is
    [completeCoverImage]. *)
Definition updateBook_cover (files : option Files) : M string :=
  match first_file files coverImage with
  | None => ret ""
  | Some cover =>
      if negb (Js.startsWith (mimetype cover) "image/")
      then next 400 "Cover image must be an image file"
      else
      let filePath := updatePath (filename cover) in
      onDisk ← existsSync filePath;
      if negb onDisk
      then next 400 "Cover image file not found on server"
      else
      try_catch
        (uploadResult ← cloudinary_upload filePath (coverOptions cover);
         unlink filePath;;
         ret uploadResult)
        (fun uploadError => next 500 "Error uploading cover image")
  end.

(** The block "Handle book file update" (lines 241-278); its value is
    [completeFileName]. *)
Definition updateBook_file (files : option Files) : M string :=
  match first_file files file with
  | None => ret ""
  | Some bookFile =>
      if negb (String.eqb (mimetype bookFile) "application/pdf")
      then next 400 "Book file must be a PDF"
      else
      let bookFilePath := updatePath (filename bookFile) in
      onDisk ← existsSync bookFilePath;
      if negb onDisk
      then next 400 "Book file not found on server"
      else
      try_catch
        (uploadResultPdf ←
           cloudinary_upload bookFilePath (bookOptions bookFile);
         unlink bookFilePath;;
         ret uploadResultPdf)
        (fun uploadError => next 500 "Error uploading book file")
  end.

Definition updateBook (req : Request) : M unit :=
  let title := body_title req in
  let description := body_description req in
  let genre := body_genre req in
  let bookId := params_bookId req in
  try_catch
    (found ← bookModel_findOne bookId;
     match found with
     | None => next 404 "Book not found"
     | Some book =>
     if negb (String.eqb (book_author book) (userId req))
     then next 403 "You can not update others book."
     else
     let files := req_files req in
     completeCoverImage ← updateBook_cover files;
     completeFileName ← updateBook_file files;
     updatedBook ←
       bookModel_findOneAndUpdate bookId
         {| upd_title := title;
            upd_description := description;
            upd_genre := genre;
            upd_coverImage :=
              Js.or_else completeCoverImage (book_coverImage book);
            upd_file := Js.or_else completeFileName (book_file book) |};
     finish (Json (BookBody updatedBook))
     end)
    (fun err =>
       next 500
         ("Error while updating the book: " +:+ Js.to_str (Js.message err))).

(** ** [deleteBook] *)

(** The identifier handed to the object store for the cover image. *)
Definition coverImagePublicId (coverImage : string) : string :=
  let coverFileSplits := Js.split "/" coverImage in
  Js.to_str (Js.at_ coverFileSplits (-2))
  +:+ "/"
  +:+ Js.to_str
        (last ← Js.at_ coverFileSplits (-1); Js.at_ (Js.split "." last) (-2)).

(** The identifier handed to the object store for the book file. *)
Definition bookFilePublicId (file : string) : string :=
  let bookFileSplits := Js.split "/" file in
  Js.to_str (Js.at_ bookFileSplits (-2))
  +:+ "/"
  +:+ Js.to_str (Js.at_ bookFileSplits (-1)).

Definition deleteBook (req : Request) : M unit :=
  let bookId := params_bookId req in
  try_catch
    (found ← bookModel_findOne bookId;
     match found with
     | None => next 404 "Book not found"
     | Some book =>
     if negb (String.eqb (book_author book) (userId req))
     then next 403 "You can not delete others book."
     else
     try_catch
       (cloudinary_destroy (coverImagePublicId (book_coverImage book)) None;;
        cloudinary_destroy (bookFilePublicId (book_file book)) (Some "raw"))
       (fun cloudinaryError => ret tt);;
     bookModel_deleteOne bookId;;
     finish (SendStatus 204)
     end)
    (fun err =>
       next 500 ("Error while deleting book: " +:+ Js.to_str (Js.message err))).

End Controller.

(** * Specification-side definitions *)

(** Calls to [cloudinary.uploader.upload] in a trace. *)
Definition is_upload (e : Event) : bool :=
  match e with
  | Upload _ _ => true
  | _ => false
  end.

Definition upload_calls (t : list Event) : nat :=
  length (List.filter is_upload t).

(** Calls to the remote object store in a trace. *)
Definition is_remote (e : Event) : bool :=
  match e with
  | Upload _ _ | Destroy _ _ => true
  | _ => false
  end.

Definition remote_calls (t : list Event) : list Event :=
  List.filter is_remote t.

(** ** Preconditions of [createBook]

    The preconditions as the specification lists them, in its order; the
    presence of the two files on disk is checked cover first. *)

Inductive Precondition :=
| FieldsNonEmpty
| CoverPresent
| DocumentPresent
| CoverIsImage
| DocumentIsPdf
| CoverOnDisk
| DocumentOnDisk.

Definition preconditions : list Precondition :=
  [FieldsNonEmpty; CoverPresent; DocumentPresent; CoverIsImage;
   DocumentIsPdf; CoverOnDisk; DocumentOnDisk].

Definition non_empty (v : option string) : bool :=
  match v with
  | Some s => bool_decide (s ≠ "")
  | None => false
  end.

(** The cover file of a request, when there is one. *)
Definition cover_of (req : Request) : option MulterFile :=
  match req_files req with
  | Some {| coverImage := Some (f :: _) |} => Some f
  | _ => None
  end.

(** The document file of a request, when there is one. *)
Definition document_of (req : Request) : option MulterFile :=
  match req_files req with
  | Some {| file := Some (f :: _) |} => Some f
  | _ => None
  end.

Definition holds (env : Env) (req : Request) (w : World) (p : Precondition)
  : bool :=
  match p with
  | FieldsNonEmpty =>
      non_empty (body_title req) && non_empty (body_genre req)
      && non_empty (body_description req)
  | CoverPresent => bool_decide (is_Some (cover_of req))
  | DocumentPresent => bool_decide (is_Some (document_of req))
  | CoverIsImage =>
      match cover_of req with
      | Some f => String.prefix "image/" (mimetype f)
      | None => false
      end
  | DocumentIsPdf =>
      match document_of req with
      | Some f => bool_decide (mimetype f = "application/pdf")
      | None => false
      end
  | CoverOnDisk =>
      match cover_of req with
      | Some f => bool_decide (createPath env (filename f) ∈ fs w)
      | None => false
      end
  | DocumentOnDisk =>
      match document_of req with
      | Some f => bool_decide (createPath env (filename f) ∈ fs w)
      | None => false
      end
  end.

(** The first precondition that fails, if any. *)
Definition first_failure (env : Env) (req : Request) (w : World)
  : option Precondition :=
  List.find (fun p => negb (holds env req w p)) preconditions.

(** The message of the 400 error reported for each precondition. *)
Definition failure_message (p : Precondition) : string :=
  match p with
  | FieldsNonEmpty => "Title, genre, and description are required"
  | CoverPresent => "Cover image is required"
  | DocumentPresent => "Book file is required"
  | CoverIsImage => "Cover image must be an image file"
  | DocumentIsPdf => "Book file must be a PDF"
  | CoverOnDisk => "Cover image file not found on server"
  | DocumentOnDisk => "Book file not found on server"
  end.


(** ** Course of a [createBook] request that passed validation

    [t0] is the trace at the entry of the [try] block. *)

(** Trace once both files have been found on disk. *)
Definition checked (env : Env) (cover doc : MulterFile) (w : World)
  : list Event :=
  trace w ++ [ExistsSync (createPath env (filename cover));
              ExistsSync (createPath env (filename doc))].

Definition coverUpload (env : Env) (cover : MulterFile) : Event :=
  Upload (createPath env (filename cover)) (coverOptions cover).

Definition documentUpload (env : Env) (doc : MulterFile) : Event :=
  Upload (createPath env (filename doc)) (bookOptions doc).

(** The record handed to the catalog: the request's fields, the caller as
    author and the URLs returned by the two uploads. *)
Definition newRecord (env : Env) (req : Request) (cover doc : MulterFile)
    (t0 : list Event) : BookFields :=
  {| new_title := Js.to_str (body_title req);
     new_description := Js.to_str (body_description req);
     new_genre := Js.to_str (body_genre req);
     new_author := userId req;
     new_coverImage :=
       secure_url env t0 (createPath env (filename cover))
         (coverOptions cover);
     new_file :=
       secure_url env (t0 ++ [coverUpload env cover])
         (createPath env (filename doc)) (bookOptions doc) |}.

(** The three calls of the [try] block, in order. *)
Definition attempt (env : Env) (req : Request) (cover doc : MulterFile)
    (t0 : list Event) : list Event :=
  [coverUpload env cover; documentUpload env doc;
   Create (newRecord env req cover doc t0)].

(** An error [err] is thrown by the image upload, by the document upload or
    by the creation of the record; [tf] is the trace when it is thrown. *)
Inductive TryFailure (env : Env) (req : Request) (cover doc : MulterFile)
    (t0 : list Event) : Js.Error -> list Event -> Prop :=
| ImageUploadThrows err :
    fault env t0 (coverUpload env cover) = Some err ->
    TryFailure env req cover doc t0 err (t0 ++ [coverUpload env cover])
| DocumentUploadThrows err :
    fault env t0 (coverUpload env cover) = None ->
    fault env (t0 ++ [coverUpload env cover]) (documentUpload env doc)
    = Some err ->
    TryFailure env req cover doc t0 err
      (t0 ++ [coverUpload env cover; documentUpload env doc])
| RecordCreationThrows err :
    fault env t0 (coverUpload env cover) = None ->
    fault env (t0 ++ [coverUpload env cover]) (documentUpload env doc)
    = None ->
    fault env (t0 ++ [coverUpload env cover; documentUpload env doc])
      (Create (newRecord env req cover doc t0))
    = Some err ->
    TryFailure env req cover doc t0 err (t0 ++ attempt env req cover doc t0).

(** None of the three calls throws. *)
Definition TrySucceeds (env : Env) (req : Request) (cover doc : MulterFile)
    (t0 : list Event) : Prop :=
  fault env t0 (coverUpload env cover) = None
  /\ fault env (t0 ++ [coverUpload env cover]) (documentUpload env doc) = None
  /\ fault env (t0 ++ [coverUpload env cover; documentUpload env doc])
       (Create (newRecord env req cover doc t0)) = None.

(** The request passed validation with cover file [cover] and document file
    [doc]. *)
Definition Validated (env : Env) (req : Request) (w : World)
    (cover doc : MulterFile) : Prop :=
  cover_of req = Some cover
  /\ document_of req = Some doc
  /\ first_failure env req w = None.

(** What the clean-up after a failure does, from the trace [tf] at the
    failure and the files [before] it: the cover file is checked and
    unlinked; only if that unlink does not throw is the document file checked
    and, when it is still there, unlinked. [cleanup] are the calls made and
    [after] the files left. *)
Definition CleanupResult (env : Env) (cp dp : string) (tf : list Event)
    (before : gset string) (cleanup : list Event) (after : gset string)
  : Prop :=
  match fault env (tf ++ [ExistsSync cp]) (Unlink cp) with
  | Some _ => cleanup = [ExistsSync cp; Unlink cp] /\ after = before
  | None =>
      if decide (dp = cp)
      then cleanup = [ExistsSync cp; Unlink cp; ExistsSync dp]
           /\ after = before ∖ {[cp]}
      else cleanup = [ExistsSync cp; Unlink cp; ExistsSync dp; Unlink dp]
           /\ match
                fault env (tf ++ [ExistsSync cp; Unlink cp; ExistsSync dp])
                  (Unlink dp)
              with
              | Some _ => after = before ∖ {[cp]}
              | None => after = before ∖ {[cp]} ∖ {[dp]}
              end
  end.

(** The error has a message, which contains ["cloudinary"]. *)
Definition mentions_cloudinary (err : Js.Error) : Prop :=
  exists before after,
    Js.message err = Some (before +:+ "cloudinary" +:+ after).

(** ** Course of an [updateBook] or [deleteBook] request *)

(** The record the request names is found: the lookup does not throw and
    yields [book]. *)
Definition Found (env : Env) (req : Request) (w : World) (book : Book)
  : Prop :=
  fault env (trace w) (FindOne (params_bookId req)) = None
  /\ db w !! params_bookId req = Some book.

(** The record is found and the caller is its author. *)
Definition Authorized (env : Env) (req : Request) (w : World) (book : Book)
  : Prop :=
  Found env req w book /\ book_author book = userId req.

(** The world once the record has been looked up. *)
Definition looked_up (req : Request) (w : World) : World :=
  record (FindOne (params_bookId req)) w.

(** Calls that write to the catalog. *)
Definition is_catalog_write (e : Event) : bool :=
  match e with
  | Create _ | FindOneAndUpdate _ _ | DeleteOne _ => true
  | _ => false
  end.

Definition catalog_writes (t : list Event) : list Event :=
  List.filter is_catalog_write t.

(** ** Shape of the stored URLs *)

(** [c] does not occur in [s]. *)
Fixpoint free_of (c : ascii) (s : string) : bool :=
  match s with
  | EmptyString => true
  | String x s' => negb (Ascii.eqb x c) && free_of c s'
  end.

(** [.../<folder>/<name>.<ext>]: folder, name and extension hold no ["/"],
    name and extension hold no ["."]. *)
Definition ImageUrlShape (url folder name ext : string) : Prop :=
  exists base,
    url = base +:+ "/" +:+ folder +:+ "/" +:+ name +:+ "." +:+ ext
    /\ free_of "/" folder = true
    /\ free_of "/" name = true /\ free_of "." name = true
    /\ free_of "/" ext = true /\ free_of "." ext = true.

(** [.../<folder>/<name>]: folder and name hold no ["/"]. *)
Definition RawUrlShape (url folder name : string) : Prop :=
  exists base,
    url = base +:+ "/" +:+ folder +:+ "/" +:+ name
    /\ free_of "/" folder = true
    /\ free_of "/" name = true.

(** * Sample collaborators, requests and worlds *)

Module Sample.

(** An environment in which [faults] tells which calls throw; paths are
    joined with ["/"], uploads get a URL under the folder they ask for. *)
Definition env (faults : Event -> option Js.Error) : Env :=
  {| fault := fun _ e => faults e;
     secure_url := fun _ _ o =>
       "https://res.cloudinary.com/demo/"
       +:+ (if resource_type o is Some _ then "raw" else "image")
       +:+ "/upload/v1712/" +:+ folder o +:+ "/" +:+ filename_override o
       +:+ (if resource_type o is Some _ then ".pdf" else ".jpg");
     new_id := fun _ _ => "6611a0f2c3";
     apply_update := fun u b =>
       {| book_id := book_id b;
          book_title := default (book_title b) (upd_title u);
          book_description := default (book_description b) (upd_description u);
          book_genre := default (book_genre b) (upd_genre u);
          book_author := book_author b;
          book_coverImage := upd_coverImage u;
          book_file := upd_file u |};
     path_resolve := String.concat "/";
     dirname := "/app/src/book" |}.

Definition no_fault : Event -> option Js.Error := fun _ => None.

Definition cover : MulterFile :=
  {| filename := "c0ffee"; mimetype := "image/jpeg" |}.

Definition document : MulterFile :=
  {| filename := "d0c5"; mimetype := "application/pdf" |}.

Definition coverPath : string := createPath (env no_fault) (filename cover).
Definition documentPath : string :=
  createPath (env no_fault) (filename document).

(** The scenario of the specification: Dune, cover.jpg and book.pdf. *)
Definition dune : Request :=
  {| body_title := Some "Dune";
     body_genre := Some "SciFi";
     body_description := Some "...";
     req_files :=
       Some {| coverImage := Some [cover]; file := Some [document] |};
     userId := "u1";
     params_bookId := "" |}.

(** Both files staged, empty catalog, nothing called yet. *)
Definition staged : World :=
  mkWorld {[coverPath; documentPath]} ∅ [].

(** A remote-store timeout and a refused unlink. *)
Definition timeout : Js.Error :=
  Js.mkError (Some "Request Timeout") (Some "TimeoutError") None.

Definition eperm : Js.Error :=
  Js.mkError (Some "EPERM: operation not permitted, unlink")
    (Some "Error") (Some "EPERM").

(** The upload of the document (the raw upload) throws. *)
Definition document_upload_throws (e : Event) : option Js.Error :=
  match e with
  | Upload _ {| resource_type := Some _ |} => Some timeout
  | _ => None
  end.

(** The upload of the document throws and the cover file cannot be
    unlinked. *)
Definition document_upload_and_cover_unlink_throw (e : Event)
  : option Js.Error :=
  match e with
  | Upload _ {| resource_type := Some _ |} => Some timeout
  | Unlink p => if String.eqb p coverPath then Some eperm else None
  | _ => None
  end.

(** A request whose cover file is declared as plain text. *)
Definition text_cover : Request :=
  {| body_title := Some "Dune";
     body_genre := Some "SciFi";
     body_description := Some "...";
     req_files :=
       Some {| coverImage :=
                 Some [{| filename := "c0ffee"; mimetype := "text/plain" |}];
               file := Some [document] |};
     userId := "u1";
     params_bookId := "" |}.

(** The catalog rejects the record, quoting the offending cover URL. *)
Definition rejected : Js.Error :=
  Js.mkError
    (Some ("Book validation failed: coverImage: Path `coverImage` "
           +:+ "(`https://res.cloudinary.com/demo/image/upload/v1712/"
           +:+ "book-covers/c0ffee.jpg`) is longer than the maximum "
           +:+ "allowed length (64)."))
    (Some "ValidationError") None.

Definition record_rejected (e : Event) : option Js.Error :=
  match e with
  | Create _ => Some rejected
  | _ => None
  end.

(** The URL given to the uploaded cover. *)
Definition cover_url : string :=
  "https://res.cloudinary.com/demo/image/upload/v1712/book-covers/c0ffee.jpg".

(** A stored record owned by [u1]. *)
Definition stored : Book :=
  {| book_id := "6611a0f2c3";
     book_title := "Dune";
     book_description := "...";
     book_genre := "SciFi";
     book_author := "u1";
     book_coverImage :=
       "https://res.cloudinary.com/demo/image/upload/v1712/book-covers/c0ffee.jpg";
     book_file :=
       "https://res.cloudinary.com/demo/raw/upload/v1712/book-pdfs/d0c5.pdf" |}.

Definition newCoverPath : string :=
  updatePath (env no_fault) (filename cover).
Definition newDocumentPath : string :=
  updatePath (env no_fault) (filename document).

(** The record is in the catalog and replacement files are staged. *)
Definition shelf : World :=
  mkWorld {[newCoverPath; newDocumentPath]} {[book_id stored := stored]} [].

(** An update of the stored record with both files replaced. *)
Definition patch (caller : string) (files : option Files) : Request :=
  {| body_title := Some "Dune (2nd ed.)";
     body_genre := None;
     body_description := None;
     req_files := files;
     userId := caller;
     params_bookId := book_id stored |}.

Definition both_files : option Files :=
  Some {| coverImage := Some [cover]; file := Some [document] |}.

Definition patch_by_owner : Request := patch "u1" both_files.
Definition patch_by_other : Request := patch "u2" both_files.

(** A valid cover together with a document declared as plain text. *)
Definition text_document : MulterFile :=
  {| filename := "d0c5"; mimetype := "text/plain" |}.

Definition patch_text_document : Request :=
  patch "u1"
    (Some {| coverImage := Some [cover]; file := Some [text_document] |}).

(** Every upload throws. *)
Definition uploads_throw (e : Event) : option Js.Error :=
  match e with
  | Upload _ _ => Some timeout
  | _ => None
  end.

(** Every unlink is refused. *)
Definition unlinks_throw (e : Event) : option Js.Error :=
  match e with
  | Unlink _ => Some eperm
  | _ => None
  end.

(** Only the unlink of the replacement document is refused. *)
Definition document_unlink_throws (e : Event) : option Js.Error :=
  match e with
  | Unlink p => if String.eqb p newDocumentPath then Some eperm else None
  | _ => None
  end.

(** The deletion of the raw object throws, that of the image succeeds. *)
Definition raw_destroy_throws (e : Event) : option Js.Error :=
  match e with
  | Destroy _ (Some _) => Some timeout
  | _ => None
  end.

(** A deletion of the stored record by its owner. *)
Definition remove : Request :=
  {| body_title := None;
     body_genre := None;
     body_description := None;
     req_files := None;
     userId := "u1";
     params_bookId := book_id stored |}.

End Sample.

(** * Whole-handler properties: what a request may call and touch *)

(** An upload as the controller issues them: an image into [book-covers], or
    a raw PDF into [book-pdfs]. *)
Definition is_book_upload (o : UploadOptions) : bool :=
  (bool_decide (resource_type o = None)
   && bool_decide (folder o = "book-covers"))
  || (bool_decide (resource_type o = Some "raw")
      && bool_decide (folder o = "book-pdfs")
      && bool_decide (format o = Some "pdf")).


(** The calls [updateBook] may make for the record [id]. *)
Definition update_calls (id : string) (e : Event) : bool :=
  match e with
  | ExistsSync _ | Unlink _ => true
  | Upload _ o => is_book_upload o
  | FindOne j | FindOneAndUpdate j _ => bool_decide (j = id)
  | Destroy _ _ | Create _ | DeleteOne _ => false
  end.

(** The calls [deleteBook] may make for the record [id]. *)
Definition delete_calls (id : string) (e : Event) : bool :=
  match e with
  | FindOne j | DeleteOne j => bool_decide (j = id)
  | Destroy _ rtype => bool_decide (rtype = None \/ rtype = Some "raw")
  | ExistsSync _ | Unlink _ | Upload _ _ | Create _
  | FindOneAndUpdate _ _ => false
  end.

(** From [w] to [w']: the calls added to the trace are all [allowed]; no
    file has appeared and only files in [files] may have gone; only records
    with an identifier in [ids] may differ. *)
Definition Footprint (allowed : Event -> bool) (files ids : string -> Prop)
    (w w' : World) : Prop :=
  (exists t, trace w' = (trace w ++ t)%list /\ forallb allowed t = true)
  /\ (forall p, p ∈ fs w' -> p ∈ fs w)
  /\ (forall p, p ∈ fs w -> ~ files p -> p ∈ fs w')
  /\ (forall j, ~ ids j -> db w' !! j = db w !! j).


(** The staged files of an [updateBook] request. *)
Definition update_temp_files (env : Env) (req : Request) (p : string)
  : Prop :=
  (exists f, cover_of req = Some f /\ p = updatePath env (filename f))
  \/ (exists f, document_of req = Some f /\ p = updatePath env (filename f)).


(** [m] relates every world it starts in to the world it ends in by [R]. *)
Definition Keeps {A} (R : World -> World -> Prop) (m : M A) : Prop :=
  forall w, R w (snd (m w)).





(** The update document that [updateBook] hands to the catalog for the
    record [book], given the URLs [c] and [f] that the two replacement blocks
    produced (empty when a file was not replaced). *)
Definition updateDocument (req : Request) (book : Book) (c f : string)
  : BookUpdate :=
  {| upd_title := body_title req;
     upd_description := body_description req;
     upd_genre := body_genre req;
     upd_coverImage := Js.or_else c (book_coverImage book);
     upd_file := Js.or_else f (book_file book) |}.

(** * Further sample collaborators, requests and worlds *)

Module Scenario.

(** The driver of the catalog is down. *)
Definition disconnected : Js.Error :=
  Js.mkError (Some "connection timed out") (Some "MongoNetworkError") None.

(** Every lookup throws. *)
Definition lookups_throw (e : Event) : option Js.Error :=
  match e with
  | FindOne _ => Some disconnected
  | _ => None
  end.

(** Every update of a record throws. *)
Definition updates_throw (e : Event) : option Js.Error :=
  match e with
  | FindOneAndUpdate _ _ => Some disconnected
  | _ => None
  end.

(** Every deletion of a record throws. *)
Definition deletions_throw (e : Event) : option Js.Error :=
  match e with
  | DeleteOne _ => Some disconnected
  | _ => None
  end.

(** Replacement files staged, but an empty catalog. *)
Definition empty_shelf : World :=
  mkWorld (fs Sample.shelf) ∅ [].

(** The record is in the catalog but nothing is staged on disk. *)
Definition nothing_staged : World :=
  mkWorld ∅ (db Sample.shelf) [].

(** An update of the text fields only, by the owner. *)
Definition retitle : Request := Sample.patch "u1" None.

(** A deletion of the stored record by somebody else. *)
Definition remove_by_other : Request :=
  {| body_title := None;
     body_genre := None;
     body_description := None;
     req_files := None;
     userId := "u2";
     params_bookId := book_id Sample.stored |}.

(** The URL given to the uploaded document. *)
Definition document_url : string :=
  "https://res.cloudinary.com/demo/raw/upload/v1712/book-pdfs/d0c5.pdf".

End Scenario.

(** * Properties *)

(** ** Running the monad *)

Lemma bind_run {A B} (m : M A) (k : A -> M B) (w : World) :
  (m ≫= k) w =
  match m w with
  | (Val a, w') => k a w'
  | (Exc e, w') => (Exc e, w')
  | (Done r, w') => (Done r, w')
  end.
Proof. reflexivity. Qed.

Lemma try_catch_run {A} (body : M A) (handler : Js.Error -> M A) (w : World) :
  try_catch body handler w =
  match body w with
  | (Exc e, w') => handler e w'
  | r => r
  end.
Proof. reflexivity. Qed.

(** ** The JavaScript helpers on sample inputs *)

Example split_segments :
  Js.split "/" "https://host/a//b" = ["https:"; ""; "host"; "a"; ""; "b"].
Proof. reflexivity. Qed.

Example split_no_separator : Js.split "." "readme" = ["readme"].
Proof. reflexivity. Qed.

Example at_from_the_end :
  Js.at_ ["a"; "b"; "c"] (-1) = Some "c"
  /\ Js.at_ ["a"; "b"; "c"] (-2) = Some "b"
  /\ Js.at_ ["a"] (-2) = None.
Proof. repeat split. Qed.

Example includes_inside :
  Js.includes "Invalid cloudinary credentials" "cloudinary" = true
  /\ Js.includes "Request Timeout" "cloudinary" = false.
Proof. split; reflexivity. Qed.

Example public_ids :
  coverImagePublicId Sample.cover_url = "book-covers/c0ffee"
  /\ bookFilePublicId (book_file Sample.stored) = "book-pdfs/d0c5.pdf"
  /\ bookFilePublicId "d0c5.pdf" = "undefined/d0c5.pdf"
  /\ coverImagePublicId "book-covers/c0ffee" = "book-covers/undefined".
Proof. repeat split. Qed.

Example createBook_dune :
  fst (createBook (Sample.env Sample.no_fault) Sample.dune Sample.staged)
  = Done (StatusJson 201 (IdBody "6611a0f2c3")).
Proof. vm_compute. reflexivity. Qed.

Lemma truthy_non_empty (v : option string) : Js.truthy v = non_empty v.
Proof.
  destruct v as [s|]; simpl; [|reflexivity].
  destruct (String.eqb_spec s ""); simpl;
    [rewrite bool_decide_eq_false_2 | rewrite bool_decide_eq_true_2];
    auto.
Qed.

Lemma first_file_cover (req : Request) :
  first_file (req_files req) coverImage = cover_of req.
Proof.
  unfold first_file, cover_of.
  destruct (req_files req) as [[[[|f l]|] d]|]; reflexivity.
Qed.

Lemma first_file_document (req : Request) :
  first_file (req_files req) file = document_of req.
Proof.
  unfold first_file, document_of.
  destruct (req_files req) as [[c [[|f l]|]]|]; reflexivity.
Qed.

Lemma eqb_bool_decide (a b : string) : String.eqb a b = bool_decide (a = b).
Proof.
  destruct (String.eqb_spec a b);
    [rewrite bool_decide_eq_true_2 | rewrite bool_decide_eq_false_2]; auto.
Qed.

Lemma failure_message_inj (p q : Precondition) :
  failure_message q = failure_message p -> q = p.
Proof. destruct p, q; simpl; intros H; solve [reflexivity | discriminate H]. Qed.

(** C1. A request to [createBook] whose first failing precondition (in the
    order: fields non-empty, cover present, document present, cover is an
    image, document is a PDF, cover on disk, document on disk) is [p] is
    completed with the 400 error of [p], whose message no other precondition
    shares; the files on disk and the catalog are untouched and no upload to
    the remote store has been made: the only calls are existence checks. *)
Theorem createBook_first_failure_wins
    (env : Env) (req : Request) (w : World) (p : Precondition) :
  first_failure env req w = Some p ->
  exists w',
    createBook env req w = (Done (NextError 400 (failure_message p)), w')
    /\ fs w' = fs w
    /\ db w' = db w
    /\ upload_calls (trace w') = upload_calls (trace w)
    /\ remote_calls (trace w') = remote_calls (trace w)
    /\ forall q, failure_message q = failure_message p -> q = p.
Proof.
  assert (Hcalls : forall t l,
             List.forallb (fun e => negb (is_remote e)) l = true ->
             upload_calls (t ++ l) = upload_calls t
             /\ remote_calls (t ++ l) = remote_calls t).
  { intros t l Hl. unfold upload_calls, remote_calls.
    rewrite !List.filter_app.
    induction l as [|[] l IH]; simpl in *;
      rewrite ?app_nil_r; try discriminate; auto. }
  unfold first_failure, preconditions, createBook. simpl.
  rewrite !truthy_non_empty, first_file_cover, first_file_document.
  rewrite <- !negb_andb. unfold Js.startsWith.
  destruct (non_empty (body_title req) && non_empty (body_genre req)
            && non_empty (body_description req)); simpl;
    [|intros [= <-]; eexists; repeat split; auto using failure_message_inj].
  destruct (cover_of req) as [c|]; simpl;
    [|intros [= <-]; eexists; repeat split; auto using failure_message_inj].
  destruct (document_of req) as [d|]; simpl;
    [|intros [= <-]; eexists; repeat split; auto using failure_message_inj].
  destruct (String.prefix "image/" (mimetype c)); simpl;
    [|intros [= <-]; eexists; repeat split; auto using failure_message_inj].
  rewrite eqb_bool_decide.
  destruct (bool_decide (mimetype d = "application/pdf")); simpl;
    [|intros [= <-]; eexists; repeat split; auto using failure_message_inj].
  rewrite bind_run. unfold existsSync at 1.
  destruct (bool_decide (createPath env (filename c) ∈ fs w)); simpl;
    [|intros [= <-]; eexists; repeat split; simpl;
      auto using failure_message_inj; apply Hcalls; reflexivity].
  rewrite bind_run. unfold existsSync at 1. simpl.
  destruct (bool_decide (createPath env (filename d) ∈ fs w)); simpl;
    [discriminate|].
  intros [= <-]; eexists; repeat split; simpl;
    auto using failure_message_inj;
    rewrite <- app_assoc; apply Hcalls; reflexivity.
Qed.

Lemma createBook_first_failure_wins_witness :
  first_failure (Sample.env Sample.no_fault) Sample.text_cover Sample.staged
  = Some CoverIsImage
  /\ exists w',
       createBook (Sample.env Sample.no_fault) Sample.text_cover Sample.staged
       = (Done (NextError 400 "Cover image must be an image file"), w')
       /\ upload_calls (trace w') = upload_calls (trace Sample.staged).
Proof.
  split; [reflexivity|].
  destruct (createBook_first_failure_wins (Sample.env Sample.no_fault)
              Sample.text_cover Sample.staged CoverIsImage)
    as (w' & H & _ & _ & Hup & _); [reflexivity|].
  exists w'. split; assumption.
Defined.

(** ** The collaborators, step by step *)

Lemma unlink_removes (env : Env) (path : string) (w : World) :
  path ∈ fs w ->
  fault env (trace w) (Unlink path) = None ->
  unlink env path w
  = (Val tt, mkWorld (fs w ∖ {[path]}) (db w) (trace w ++ [Unlink path])).
Proof.
  intros Hin Hok. unfold unlink.
  rewrite bool_decide_eq_true_2 by assumption. rewrite Hok. reflexivity.
Qed.

Lemma unlink_throws (env : Env) (path : string) (w : World) (e : Js.Error) :
  path ∈ fs w ->
  fault env (trace w) (Unlink path) = Some e ->
  unlink env path w = (Exc e, record (Unlink path) w).
Proof.
  intros Hin Hko. unfold unlink.
  rewrite bool_decide_eq_true_2 by assumption. rewrite Hko. reflexivity.
Qed.

Lemma unlink_missing (env : Env) (path : string) (w : World) :
  path ∉ fs w ->
  unlink env path w = (Exc (enoent path), record (Unlink path) w).
Proof.
  intros Hout. unfold unlink.
  rewrite bool_decide_eq_false_2 by assumption. reflexivity.
Qed.

(** ** [createBook] after validation *)

Lemma createBook_validated
    (env : Env) (req : Request) (w : World) (cover doc : MulterFile) :
  Validated env req w cover doc ->
  createPath env (filename cover) ∈ fs w
  /\ createPath env (filename doc) ∈ fs w
  /\ createBook env req w
     = try_catch (createBook_try env req cover doc)
         (createBook_catch env (createPath env (filename cover))
            (createPath env (filename doc)))
         (mkWorld (fs w) (db w) (checked env cover doc w)).
Proof.
  intros (Hc & Hd & Hv). revert Hv.
  unfold first_failure, preconditions, createBook. simpl.
  rewrite !truthy_non_empty, first_file_cover, first_file_document.
  rewrite <- !negb_andb. unfold Js.startsWith. rewrite Hc, Hd.
  rewrite eqb_bool_decide.
  destruct (non_empty (body_title req) && non_empty (body_genre req)
            && non_empty (body_description req)); simpl; [|discriminate].
  destruct (String.prefix "image/" (mimetype cover)); simpl; [|discriminate].
  destruct (bool_decide (mimetype doc = "application/pdf")); simpl;
    [|discriminate].
  rewrite bind_run. unfold existsSync at 1.
  case_bool_decide as Hcp; simpl; [|discriminate].
  rewrite bind_run. unfold existsSync at 1. simpl.
  case_bool_decide as Hdp; simpl; [|discriminate].
  intros _. repeat split; try assumption.
  unfold checked, record. simpl. rewrite <- app_assoc. reflexivity.
Qed.

Lemma createBook_try_throws
    (env : Env) (req : Request) (cover doc : MulterFile) (w : World)
    (err : Js.Error) (tf : list Event) :
  TryFailure env req cover doc (trace w) err tf ->
  createBook_try env req cover doc w = (Exc err, mkWorld (fs w) (db w) tf).
Proof.
  intros H. unfold createBook_try.
  destruct H as [err H1|err H1 H2|err H1 H2 H3];
    unfold documentUpload, coverUpload, newRecord in *;
    rewrite bind_run; unfold cloudinary_upload at 1; rewrite H1;
    [reflexivity | |];
    rewrite bind_run; unfold cloudinary_upload at 1; simpl; rewrite H2;
    [unfold record; simpl; rewrite <- app_assoc; reflexivity|].
  rewrite bind_run. unfold bookModel_create. simpl.
  rewrite <- app_assoc. simpl. unfold coverUpload in H3. rewrite H3.
  unfold attempt, record. simpl. rewrite <- !app_assoc. reflexivity.
Qed.

Lemma createBook_cleanup_run (env : Env) (cp dp : string) (w : World) :
  cp ∈ fs w ->
  dp ∈ fs w ->
  exists files cleanup,
    createBook_cleanup env cp dp w
    = (Val tt, mkWorld files (db w) (trace w ++ cleanup))
    /\ CleanupResult env cp dp (trace w) (fs w) cleanup files.
Proof.
  intros Hcp Hdp. unfold createBook_cleanup, CleanupResult.
  rewrite try_catch_run, bind_run. unfold existsSync at 1.
  rewrite bool_decide_eq_true_2 by assumption. simpl.
  rewrite bind_run.
  destruct (fault env (trace w ++ [ExistsSync cp]) (Unlink cp)) as [e|] eqn:F1.
  - rewrite (unlink_throws env cp (record (ExistsSync cp) w) e) by assumption.
    exists (fs w), [ExistsSync cp; Unlink cp]. split; [|tauto].
    unfold record. simpl. rewrite <- app_assoc. reflexivity.
  - rewrite (unlink_removes env cp (record (ExistsSync cp) w)) by assumption.
    simpl. rewrite bind_run. unfold existsSync at 1. simpl.
    destruct (decide (dp = cp)) as [->|Hne].
    + rewrite bool_decide_eq_false_2
        by (rewrite elem_of_difference, elem_of_singleton; tauto).
      simpl.
      exists (fs w ∖ {[cp]}), [ExistsSync cp; Unlink cp; ExistsSync cp].
      split; [|tauto].
      unfold record. simpl. rewrite <- !app_assoc. reflexivity.
    + assert (Hdp' : dp ∈ fs w ∖ {[cp]})
        by (rewrite elem_of_difference, elem_of_singleton; tauto).
      rewrite bool_decide_eq_true_2 by exact Hdp'. simpl.
      unfold unlink. simpl.
      rewrite bool_decide_eq_true_2 by exact Hdp'.
      rewrite <- !app_assoc. simpl.
      destruct (fault env (trace w ++ [ExistsSync cp; Unlink cp; ExistsSync dp])
                  (Unlink dp)) as [e|] eqn:F2.
      * exists (fs w ∖ {[cp]}), [ExistsSync cp; Unlink cp; ExistsSync dp; Unlink dp].
        split; [|tauto]. unfold ret, record. simpl. rewrite <- !app_assoc.
        reflexivity.
      * exists (fs w ∖ {[cp]} ∖ {[dp]}),
          [ExistsSync cp; Unlink cp; ExistsSync dp; Unlink dp].
        split; [|tauto]. reflexivity.
Qed.

Lemma createBook_surface_replies (err : Js.Error) (w : World) :
  exists status msg,
    createBook_surface err w = (Done (NextError status msg), w)
    /\ (status = 400 \/ status = 500)%nat.
Proof.
  unfold createBook_surface.
  repeat match goal with
         | |- context [if ?b then _ else _] => destruct b
         end; eexists _, _; split; try reflexivity; auto.
Qed.

Lemma CleanupResult_removes_both (env : Env) (cp dp : string)
    (tf cleanup : list Event) (before after : gset string) :
  CleanupResult env cp dp tf before cleanup after ->
  (forall t, fault env t (Unlink cp) = None) ->
  (forall t, fault env t (Unlink dp) = None) ->
  (cp ∉ after) /\ (dp ∉ after).
Proof.
  unfold CleanupResult. intros H Hc Hd. rewrite Hc in H.
  destruct (decide (dp = cp)) as [->|Hne].
  - destruct H as [_ ->].
    split; rewrite elem_of_difference, elem_of_singleton; tauto.
  - rewrite Hd in H. destruct H as [_ ->].
    split; rewrite !elem_of_difference, !elem_of_singleton; tauto.
Qed.

(** C2 (as amended). When a validated [createBook] request has its image
    upload, its document upload or the creation of its record throw, the
    request is completed with an error and the catalog is as before; before
    that the clean-up has run: the cover file is checked and unlinked, and
    the document file is checked and unlinked provided the cover's unlink did
    not throw. When no unlink throws both temporary files are gone; this
    covers the scenario of a successful image upload followed by a throwing
    document upload ([DocumentUploadThrows]). *)
Theorem createBook_failure_cleans_up
    (env : Env) (req : Request) (w : World) (cover doc : MulterFile)
    (err : Js.Error) (tf : list Event) :
  Validated env req w cover doc ->
  TryFailure env req cover doc (checked env cover doc w) err tf ->
  exists status msg w' cleanup,
    createBook env req w = (Done (NextError status msg), w')
    /\ db w' = db w
    /\ trace w' = (tf ++ cleanup)%list
    /\ CleanupResult env (createPath env (filename cover))
         (createPath env (filename doc)) tf (fs w) cleanup (fs w')
    /\ ((forall t, fault env t (Unlink (createPath env (filename cover))) = None) ->
        (forall t, fault env t (Unlink (createPath env (filename doc))) = None) ->
        (createPath env (filename cover) ∉ fs w')
        /\ (createPath env (filename doc) ∉ fs w')).
Proof.
  intros Hv Hf.
  destruct (createBook_validated env req w cover doc Hv) as (Hcp & Hdp & ->).
  rewrite try_catch_run.
  rewrite (createBook_try_throws env req cover doc _ err tf) by exact Hf.
  simpl. unfold createBook_catch. rewrite bind_run.
  destruct (createBook_cleanup_run env (createPath env (filename cover))
              (createPath env (filename doc))
              (mkWorld (fs w) (db w) tf) Hcp Hdp)
    as (files & cleanup & -> & Hclean).
  simpl in *.
  destruct (createBook_surface_replies err
              (mkWorld files (db w) (tf ++ cleanup)))
    as (status & msg & -> & _).
  exists status, msg, (mkWorld files (db w) (tf ++ cleanup)), cleanup.
  simpl. split; [reflexivity|]. split; [reflexivity|].
  split; [reflexivity|]. split; [assumption|].
  intros Hc Hd. eapply CleanupResult_removes_both; eassumption.
Qed.

Lemma createBook_failure_cleans_up_witness :
  Validated (Sample.env Sample.document_upload_throws) Sample.dune
    Sample.staged Sample.cover Sample.document
  /\ exists status msg w',
       createBook (Sample.env Sample.document_upload_throws) Sample.dune
         Sample.staged
       = (Done (NextError status msg), w')
       /\ db w' = db Sample.staged
       /\ (Sample.coverPath ∉ fs w') /\ (Sample.documentPath ∉ fs w').
Proof.
  assert (Hv : Validated (Sample.env Sample.document_upload_throws)
                 Sample.dune Sample.staged Sample.cover Sample.document)
    by (repeat split; vm_compute; reflexivity).
  split; [exact Hv|].
  pose proof (DocumentUploadThrows
                (Sample.env Sample.document_upload_throws) Sample.dune
                Sample.cover Sample.document
                (checked (Sample.env Sample.document_upload_throws)
                   Sample.cover Sample.document Sample.staged)
                Sample.timeout eq_refl eq_refl) as Hf.
  destruct (createBook_failure_cleans_up
              (Sample.env Sample.document_upload_throws) Sample.dune
              Sample.staged Sample.cover Sample.document Sample.timeout _ Hv
              Hf)
    as (status & msg & w' & cleanup & H & Hdb & _ & _ & Hgone).
  exists status, msg, w'. split; [exact H|]. split; [exact Hdb|].
  apply Hgone; intros t; reflexivity.
Defined.

(** C2 (as stated) does not hold: the two deletions are not independent.
    With the document upload throwing and the unlink of the cover file
    refused, the document file stays on disk although its own unlink would
    never throw. *)
Lemma createBook_cleanup_not_independent :
  ~ (forall env req w cover doc err tf,
       Validated env req w cover doc ->
       TryFailure env req cover doc (checked env cover doc w) err tf ->
       (forall t, fault env t (Unlink (createPath env (filename doc))) = None) ->
       createPath env (filename doc) ∉ fs (snd (createBook env req w))).
Proof.
  intros H.
  eapply (H (Sample.env Sample.document_upload_and_cover_unlink_throw)
            Sample.dune Sample.staged Sample.cover Sample.document
            Sample.timeout).
  - repeat split; vm_compute; reflexivity.
  - apply DocumentUploadThrows; reflexivity.
  - intros t. reflexivity.
  - apply (bool_decide_unpack _). vm_compute. exact I.
Qed.

(** The course of a validated request none of whose calls in the [try]
    block throws. *)
Lemma createBook_success_run
    (env : Env) (req : Request) (w : World) (cover doc : MulterFile) :
  Validated env req w cover doc ->
  TrySucceeds env req cover doc (checked env cover doc w) ->
  let cp := createPath env (filename cover) in
  let dp := createPath env (filename doc) in
  let t0 := checked env cover doc w in
  let fields := newRecord env req cover doc t0 in
  let id := new_id env (t0 ++ [coverUpload env cover; documentUpload env doc])
              fields in
  exists w' cleanup,
    createBook env req w = (Done (StatusJson 201 (IdBody id)), w')
    /\ db w' = <[id := mkBook id fields]> (db w)
    /\ new_author fields = userId req
    /\ new_coverImage fields = secure_url env t0 cp (coverOptions cover)
    /\ new_file fields
       = secure_url env (t0 ++ [coverUpload env cover]) dp (bookOptions doc)
    /\ trace w'
       = (trace w
          ++ [ExistsSync cp; ExistsSync dp;
              Upload cp (coverOptions cover); Upload dp (bookOptions doc);
              Create fields]
          ++ cleanup)%list
    /\ (cleanup = [Unlink cp] \/ cleanup = [Unlink cp; Unlink dp])
    /\ ((forall t, fault env t (Unlink cp) = None) ->
        (forall t, fault env t (Unlink dp) = None) ->
        cleanup = [Unlink cp; Unlink dp] /\ (cp ∉ fs w') /\ (dp ∉ fs w')).
Proof.
  intros Hv (H1 & H2 & H3) cp dp t0 fields id.
  destruct (createBook_validated env req w cover doc Hv) as (Hcp & Hdp & ->).
  fold cp dp t0 in Hcp, Hdp, H1, H2, H3 |- *.
  rewrite try_catch_run. unfold createBook_try.
  unfold coverUpload, documentUpload in *. fold cp dp in H1, H2, H3 |- *.
  rewrite bind_run. unfold cloudinary_upload at 1. simpl. rewrite H1.
  rewrite bind_run. unfold cloudinary_upload at 1. simpl. rewrite H2.
  rewrite bind_run. unfold bookModel_create. simpl.
  rewrite <- app_assoc. simpl.
  change {| new_title := Js.to_str (body_title req);
            new_description := Js.to_str (body_description req);
            new_genre := Js.to_str (body_genre req);
            new_author := userId req;
            new_coverImage := secure_url env t0 cp (coverOptions cover);
            new_file :=
              secure_url env (t0 ++ [Upload cp (coverOptions cover)]) dp
                (bookOptions doc) |}
    with fields.
  fold fields in H3. rewrite H3.
  unfold coverUpload, documentUpload in id. fold cp dp in id. fold id.
  rewrite bind_run, try_catch_run, bind_run.
  set (t5 := ((t0 ++ [Upload cp (coverOptions cover);
                        Upload dp (bookOptions doc)])
               ++ [Create fields])%list).
  assert (Ht : forall l,
             (t5 ++ l)%list
             = (trace w
                ++ [ExistsSync cp; ExistsSync dp;
                    Upload cp (coverOptions cover);
                    Upload dp (bookOptions doc); Create fields] ++ l)%list).
  { intros l. unfold t5, t0, checked. fold cp dp.
    rewrite <- !app_assoc. reflexivity. }
  unfold unlink at 1. simpl. rewrite bool_decide_eq_true_2 by assumption.
  destruct (fault env t5 (Unlink cp)) as [e|] eqn:F1; simpl.
  { eexists _, [Unlink cp]. simpl.
    split; [reflexivity|]. repeat (split; [reflexivity|]).
    split; [apply Ht|].
    split; [left; reflexivity|].
    intros Hc _. rewrite Hc in F1. discriminate F1. }
  unfold unlink. simpl.
  destruct (decide (dp = cp)) as [Heq|Hne].
  { rewrite bool_decide_eq_false_2
      by (rewrite Heq, elem_of_difference, elem_of_singleton; tauto).
    simpl. eexists _, [Unlink cp; Unlink dp]. unfold record, ret. simpl.
    split; [reflexivity|]. repeat (split; [reflexivity|]).
    split; [rewrite <- ?app_assoc; apply Ht|].
    split; [right; reflexivity|].
    intros _ _. split; [reflexivity|]. simpl. rewrite Heq.
    split; rewrite elem_of_difference, elem_of_singleton; tauto. }
  rewrite bool_decide_eq_true_2
    by (rewrite elem_of_difference, elem_of_singleton; tauto).
  destruct (fault env (t5 ++ [Unlink cp]) (Unlink dp)) as [e|] eqn:F2; simpl.
  { eexists _, [Unlink cp; Unlink dp]. unfold record, ret. simpl.
    split; [reflexivity|]. repeat (split; [reflexivity|]).
    split; [rewrite <- ?app_assoc; apply Ht|].
    split; [right; reflexivity|].
    intros _ Hd. rewrite Hd in F2. discriminate F2. }
  eexists _, [Unlink cp; Unlink dp]. unfold record, ret. simpl.
  split; [reflexivity|]. repeat (split; [reflexivity|]).
  split; [rewrite <- ?app_assoc; apply Ht|].
  split; [right; reflexivity|].
  intros _ _. split; [reflexivity|]. simpl.
  split; rewrite !elem_of_difference, !elem_of_singleton; tauto.
Qed.

(** C7. A validated [createBook] request none of whose uploads nor record
    creation throws makes its calls in this order: the two existence checks,
    the image upload, the document upload, the creation of the record (with
    the caller as author and the URLs the two uploads returned), then the
    unlinks of the temporary files. It is answered 201 with the identifier
    of the new record whatever the unlinks do; when no unlink throws, both
    unlinks are made and both temporary files are gone. *)
Theorem createBook_success_order
    (env : Env) (req : Request) (w : World) (cover doc : MulterFile) :
  Validated env req w cover doc ->
  TrySucceeds env req cover doc (checked env cover doc w) ->
  let cp := createPath env (filename cover) in
  let dp := createPath env (filename doc) in
  let t0 := checked env cover doc w in
  let fields := newRecord env req cover doc t0 in
  let id := new_id env (t0 ++ [coverUpload env cover; documentUpload env doc])
              fields in
  exists w' cleanup,
    createBook env req w = (Done (StatusJson 201 (IdBody id)), w')
    /\ db w' = <[id := mkBook id fields]> (db w)
    /\ new_author fields = userId req
    /\ new_coverImage fields = secure_url env t0 cp (coverOptions cover)
    /\ new_file fields
       = secure_url env (t0 ++ [coverUpload env cover]) dp (bookOptions doc)
    /\ trace w'
       = (trace w
          ++ [ExistsSync cp; ExistsSync dp;
              Upload cp (coverOptions cover); Upload dp (bookOptions doc);
              Create fields]
          ++ cleanup)%list
    /\ (cleanup = [Unlink cp] \/ cleanup = [Unlink cp; Unlink dp])
    /\ ((forall t, fault env t (Unlink cp) = None) ->
        (forall t, fault env t (Unlink dp) = None) ->
        cleanup = [Unlink cp; Unlink dp] /\ (cp ∉ fs w') /\ (dp ∉ fs w')).
Proof. exact (createBook_success_run env req w cover doc). Qed.

Lemma createBook_success_order_witness :
  Validated (Sample.env Sample.no_fault) Sample.dune Sample.staged
    Sample.cover Sample.document
  /\ exists w',
       createBook (Sample.env Sample.no_fault) Sample.dune Sample.staged
       = (Done (StatusJson 201 (IdBody "6611a0f2c3")), w')
       /\ (Sample.coverPath ∉ fs w') /\ (Sample.documentPath ∉ fs w').
Proof.
  assert (Hv : Validated (Sample.env Sample.no_fault) Sample.dune
                 Sample.staged Sample.cover Sample.document)
    by (repeat split; vm_compute; reflexivity).
  split; [exact Hv|].
  destruct (createBook_success_order (Sample.env Sample.no_fault)
              Sample.dune Sample.staged Sample.cover Sample.document Hv)
    as (w' & cleanup & H & _ & _ & _ & _ & _ & _ & Hgone).
  { repeat split. }
  exists w'. split; [exact H|].
  apply Hgone; intros t; reflexivity.
Defined.

(** ** Errors surfaced by [createBook] *)

Lemma prefix_app (p s : string) :
  String.prefix p s = true <-> exists rest, s = p +:+ rest.
Proof.
  revert s. induction p as [|x p IH]; intros [|y s]; simpl.
  - split; eauto.
  - split; eauto.
  - split; [discriminate | intros [rest [=]]].
  - destruct (Ascii.ascii_dec x y) as [Heq|Hne].
    + subst y. rewrite IH.
      split; intros [rest H]; exists rest.
      * rewrite H. reflexivity.
      * injection H as H. exact H.
    + split; [discriminate|].
      intros [rest H]. injection H as H1 H2. congruence.
Qed.

Lemma includes_app (s pat : string) :
  Js.includes s pat = true <-> exists before after, s = before +:+ pat +:+ after.
Proof.
  induction s as [|x s IH]; cbn [Js.includes].
  - rewrite orb_false_r, prefix_app. split.
    + intros [rest H]. exists "", rest. exact H.
    + intros (before & after & H). exists after.
      destruct before; [exact H | discriminate H].
  - rewrite orb_true_iff, (prefix_app pat (String x s)), IH. split.
    + intros [[rest H]|(before & after & H)].
      * exists "", rest. exact H.
      * exists (String x before), after. rewrite H. reflexivity.
    + intros (before & after & H). destruct before as [|y before].
      * left. exists after. exact H.
      * right. injection H as _ H. exists before, after. exact H.
Qed.

Lemma mentions_cloudinary_test (err : Js.Error) :
  Js.truthy (Js.message err)
  && Js.includes (Js.to_str (Js.message err)) "cloudinary" = true
  <-> mentions_cloudinary err.
Proof.
  unfold mentions_cloudinary. destruct (Js.message err) as [m|]; simpl.
  - rewrite andb_true_iff, includes_app. split.
    + intros [_ (before & after & ->)]. eauto.
    + intros (before & after & [= ->]). split; [|eauto].
      destruct before; reflexivity.
  - split; [discriminate | intros (before & after & [=])].
Qed.

(** C8 (as amended). Whatever error the image upload, the document upload
    or the creation of the record throws in a validated [createBook] request,
    the request is completed by an HTTP error chosen by the first test that
    the thrown error passes: its message contains ["cloudinary"] (500, upload
    to cloud storage failed); else its name is ["ValidationError"] (400,
    invalid book data, with the message); else its code is ["ENOENT"] (400,
    file not found); else 500 with the message. The thrown error itself is
    never the outcome. *)
Theorem createBook_error_classification
    (env : Env) (req : Request) (w : World) (cover doc : MulterFile)
    (err : Js.Error) (tf : list Event) :
  Validated env req w cover doc ->
  TryFailure env req cover doc (checked env cover doc w) err tf ->
  exists reply w',
    createBook env req w = (Done reply, w')
    /\ (mentions_cloudinary err ->
        reply = NextError 500 "Error uploading files to cloud storage")
    /\ (~ mentions_cloudinary err ->
        Js.name err = Some "ValidationError" ->
        reply = NextError 400
                  ("Invalid book data: " +:+ Js.to_str (Js.message err)))
    /\ (~ mentions_cloudinary err ->
        Js.name err <> Some "ValidationError" ->
        Js.code err = Some "ENOENT" ->
        reply = NextError 400 "File not found on server")
    /\ (~ mentions_cloudinary err ->
        Js.name err <> Some "ValidationError" ->
        Js.code err <> Some "ENOENT" ->
        reply = NextError 500
                  ("Error while uploading the files: "
                   +:+ Js.to_str (Js.message err))).
Proof.
  intros Hv Hf.
  destruct (createBook_validated env req w cover doc Hv) as (Hcp & Hdp & ->).
  rewrite try_catch_run.
  rewrite (createBook_try_throws env req cover doc _ err tf) by exact Hf.
  simpl. unfold createBook_catch. rewrite bind_run.
  destruct (createBook_cleanup_run env (createPath env (filename cover))
              (createPath env (filename doc))
              (mkWorld (fs w) (db w) tf) Hcp Hdp)
    as (files & cleanup & -> & _).
  unfold createBook_surface.
  pose proof (mentions_cloudinary_test err) as Hm.
  destruct (Js.truthy (Js.message err)
            && Js.includes (Js.to_str (Js.message err)) "cloudinary").
  { eexists _, _. split; [reflexivity|].
    assert (mentions_cloudinary err) by (apply Hm; reflexivity).
    repeat split; intros; solve [reflexivity | contradiction]. }
  assert (Hn : ~ mentions_cloudinary err)
    by (intros H%Hm; discriminate H).
  case_bool_decide as Hname.
  { eexists _, _. split; [reflexivity|].
    repeat split; intros; solve [reflexivity | contradiction]. }
  case_bool_decide as Hcode.
  { eexists _, _. split; [reflexivity|].
    repeat split; intros; solve [reflexivity | contradiction]. }
  eexists _, _. split; [reflexivity|].
  repeat split; intros; solve [reflexivity | contradiction].
Qed.

Lemma createBook_error_classification_witness :
  Validated (Sample.env Sample.document_upload_throws) Sample.dune
    Sample.staged Sample.cover Sample.document
  /\ exists w',
       createBook (Sample.env Sample.document_upload_throws) Sample.dune
         Sample.staged
       = (Done (NextError 500
                  "Error while uploading the files: Request Timeout"), w').
Proof.
  assert (Hv : Validated (Sample.env Sample.document_upload_throws)
                 Sample.dune Sample.staged Sample.cover Sample.document)
    by (repeat split; vm_compute; reflexivity).
  split; [exact Hv|].
  pose proof (DocumentUploadThrows
                (Sample.env Sample.document_upload_throws) Sample.dune
                Sample.cover Sample.document
                (checked (Sample.env Sample.document_upload_throws)
                   Sample.cover Sample.document Sample.staged)
                Sample.timeout eq_refl eq_refl) as Hf.
  destruct (createBook_error_classification
              (Sample.env Sample.document_upload_throws) Sample.dune
              Sample.staged Sample.cover Sample.document Sample.timeout _ Hv
              Hf)
    as (reply & w' & H & _ & _ & _ & Hother).
  exists w'. rewrite H. rewrite Hother; [reflexivity| |discriminate|discriminate].
  intros Hm%mentions_cloudinary_test. vm_compute in Hm. discriminate Hm.
Defined.

(** C8 (as stated) does not hold: a record-validation failure of the catalog
    whose message quotes the cover URL (which contains ["cloudinary"]) is
    surfaced as the 500 upload failure, not as the 400 invalid-data error. *)
Lemma createBook_validation_error_not_400 :
  ~ (forall env req w cover doc err,
       Validated env req w cover doc ->
       let t0 := checked env cover doc w in
       fault env t0 (coverUpload env cover) = None ->
       fault env (t0 ++ [coverUpload env cover]) (documentUpload env doc)
       = None ->
       fault env (t0 ++ [coverUpload env cover; documentUpload env doc])
         (Create (newRecord env req cover doc t0))
       = Some err ->
       Js.name err = Some "ValidationError" ->
       fst (createBook env req w)
       = Done (NextError 400
                 ("Invalid book data: " +:+ Js.to_str (Js.message err)))).
Proof.
  intros H.
  specialize (H (Sample.env Sample.record_rejected) Sample.dune Sample.staged
                Sample.cover Sample.document Sample.rejected).
  assert (Hf : fst (createBook (Sample.env Sample.record_rejected)
                      Sample.dune Sample.staged)
               = Done (NextError 500 "Error uploading files to cloud storage"))
    by (vm_compute; reflexivity).
  rewrite Hf in H. discriminate H; try reflexivity.
  repeat split; vm_compute; reflexivity.
Qed.

(** ** Ownership *)

Lemma eqb_author_mismatch (a b : string) :
  a <> b -> negb (String.eqb a b) = true.
Proof. intros H. apply negb_true_iff, String.eqb_neq, H. Qed.

(** C3. When the record named by an [updateBook] or [deleteBook] request is
    found and its author is not the caller, the request is completed with a
    403 error; the catalog and the files are as before and the only call made
    is the lookup of the record: no upload, no remote deletion, no write to
    the catalog. *)
Theorem update_delete_reject_non_owner
    (env : Env) (req : Request) (w : World) (book : Book) :
  Found env req w book ->
  book_author book <> userId req ->
  updateBook env req w
  = (Done (NextError 403 "You can not update others book."),
     mkWorld (fs w) (db w) (trace w ++ [FindOne (params_bookId req)]))
  /\ deleteBook env req w
     = (Done (NextError 403 "You can not delete others book."),
        mkWorld (fs w) (db w) (trace w ++ [FindOne (params_bookId req)])).
Proof.
  intros [Hfault Hdb] Hauth.
  unfold updateBook, deleteBook.
  rewrite !try_catch_run, !bind_run. unfold bookModel_findOne.
  rewrite Hfault, Hdb. rewrite (eqb_author_mismatch _ _ Hauth).
  split; reflexivity.
Qed.

Lemma update_delete_reject_non_owner_witness :
  updateBook (Sample.env Sample.no_fault) Sample.patch_by_other Sample.shelf
  = (Done (NextError 403 "You can not update others book."),
     mkWorld (fs Sample.shelf) (db Sample.shelf)
       [FindOne (params_bookId Sample.patch_by_other)]).
Proof.
  apply (update_delete_reject_non_owner (Sample.env Sample.no_fault)
           Sample.patch_by_other Sample.shelf Sample.stored).
  - split; reflexivity.
  - discriminate.
Defined.

(** ** [updateBook]: the two replacement blocks *)

(** Enter [updateBook] for a request of the record's author. *)
Ltac enter_update H :=
  let Hfault := fresh "Hfault" in
  let Hdb := fresh "Hdb" in
  let Hauth := fresh "Hauth" in
  destruct H as [[Hfault Hdb] Hauth];
  unfold updateBook; rewrite try_catch_run, bind_run;
  unfold bookModel_findOne at 1;
  rewrite Hfault, Hdb, Hauth, String.eqb_refl;
  cbv beta iota; cbn [negb]; rewrite bind_run.

(** A cover block that completes normally either had no cover file to
    handle, or has checked, uploaded and unlinked it; the catalog is not
    touched. *)
Lemma updateBook_cover_completes
    (env : Env) (files : option Files) (w0 w1 : World) (url : string) :
  updateBook_cover env files w0 = (Val url, w1) ->
  (first_file files coverImage = None /\ url = "" /\ w1 = w0)
  \/ (exists cover,
        first_file files coverImage = Some cover
        /\ updatePath env (filename cover) ∈ fs w0
        /\ url = secure_url env
                   (trace w0 ++ [ExistsSync (updatePath env (filename cover))])
                   (updatePath env (filename cover)) (coverOptions cover)
        /\ w1 = mkWorld (fs w0 ∖ {[updatePath env (filename cover)]}) (db w0)
                  (trace w0
                   ++ [ExistsSync (updatePath env (filename cover));
                       Upload (updatePath env (filename cover))
                         (coverOptions cover);
                       Unlink (updatePath env (filename cover))])).
Proof.
  unfold updateBook_cover.
  destruct (first_file files coverImage) as [cover|].
  2:{ intros [= <- <-]. left. auto. }
  destruct (Js.startsWith (mimetype cover) "image/"); [|discriminate].
  cbn [negb]. rewrite bind_run. unfold existsSync at 1.
  case_bool_decide as Hin; [|discriminate].
  cbn [negb]. rewrite try_catch_run, bind_run.
  unfold cloudinary_upload at 1. cbn [trace record].
  destruct (fault env _ (Upload _ _)); [discriminate|].
  rewrite bind_run. unfold unlink at 1. cbn [trace record fs].
  rewrite bool_decide_eq_true_2 by assumption.
  destruct (fault env _ (Unlink _)); [discriminate|].
  intros [= <- <-]. right. exists cover. repeat split; try assumption.
  cbn [db]. rewrite <- !app_assoc. reflexivity.
Qed.

Lemma updateBook_cover_no_catalog_write
    (env : Env) (files : option Files) (w0 w1 : World) (url : string) :
  updateBook_cover env files w0 = (Val url, w1) ->
  db w1 = db w0 /\ catalog_writes (trace w1) = catalog_writes (trace w0).
Proof.
  intros [(_ & _ & ->)|(cover & _ & _ & _ & ->)]%updateBook_cover_completes.
  - auto.
  - split; [reflexivity|]. cbn [trace]. unfold catalog_writes.
    rewrite List.filter_app. cbn. apply app_nil_r.
Qed.

(** C4. In an [updateBook] request of the record's author, an upload that
    throws, be it the cover's or (once the cover block has completed) the
    document's, completes the request with a 500 error right after the
    upload: [findOneAndUpdate] is not called and the catalog is as before. *)
Theorem updateBook_upload_failure
    (env : Env) (req : Request) (w : World) (book : Book) :
  Authorized env req w book ->
  (forall cover err,
     cover_of req = Some cover ->
     Js.startsWith (mimetype cover) "image/" = true ->
     let cp := updatePath env (filename cover) in
     cp ∈ fs w ->
     fault env (trace w ++ [FindOne (params_bookId req); ExistsSync cp])
       (Upload cp (coverOptions cover)) = Some err ->
     updateBook env req w
     = (Done (NextError 500 "Error uploading cover image"),
        mkWorld (fs w) (db w)
          (trace w ++ [FindOne (params_bookId req); ExistsSync cp;
                       Upload cp (coverOptions cover)])))
  /\ (forall doc err url w1,
        updateBook_cover env (req_files req) (looked_up req w) = (Val url, w1) ->
        document_of req = Some doc ->
        mimetype doc = "application/pdf" ->
        let dp := updatePath env (filename doc) in
        dp ∈ fs w1 ->
        fault env (trace w1 ++ [ExistsSync dp]) (Upload dp (bookOptions doc))
        = Some err ->
        updateBook env req w
        = (Done (NextError 500 "Error uploading book file"),
           mkWorld (fs w1) (db w)
             (trace w1 ++ [ExistsSync dp; Upload dp (bookOptions doc)]))
        /\ catalog_writes (trace w1) = catalog_writes (trace w)).
Proof.
  intros H. split.
  - intros cover err Hc Himg cp Hin Hup. enter_update H.
    unfold updateBook_cover. rewrite first_file_cover, Hc, Himg.
    cbn [negb]. rewrite bind_run. unfold existsSync at 1.
    cbn [fs record]. rewrite bool_decide_eq_true_2 by assumption.
    cbn [negb]. rewrite try_catch_run, bind_run.
    unfold cloudinary_upload at 1. cbn [trace record].
    rewrite <- app_assoc. cbn [app]. fold cp. rewrite Hup.
    unfold record. cbn. rewrite <- !app_assoc. reflexivity.
  - intros doc err url w1 Hcover Hd Hpdf dp Hin Hup.
    destruct (updateBook_cover_no_catalog_write _ _ _ _ _ Hcover)
      as [Hdb1 Hw1].
    split.
    2:{ rewrite Hw1. unfold looked_up, record, catalog_writes. cbn.
        rewrite List.filter_app. cbn. apply app_nil_r. }
    enter_update H. fold (looked_up req w). rewrite Hcover.
    rewrite bind_run. unfold updateBook_file.
    rewrite first_file_document, Hd, Hpdf, String.eqb_refl.
    cbn [negb]. rewrite bind_run. unfold existsSync at 1.
    rewrite bool_decide_eq_true_2 by assumption.
    cbn [negb]. rewrite try_catch_run, bind_run.
    unfold cloudinary_upload at 1. cbn [trace record]. fold dp. rewrite Hup.
    unfold record. cbn. rewrite <- !app_assoc, Hdb1. reflexivity.
Qed.

Lemma updateBook_upload_failure_witness :
  Authorized (Sample.env Sample.uploads_throw) Sample.patch_by_owner
    Sample.shelf Sample.stored
  /\ fst (updateBook (Sample.env Sample.uploads_throw) Sample.patch_by_owner
            Sample.shelf)
     = Done (NextError 500 "Error uploading cover image")
  /\ db (snd (updateBook (Sample.env Sample.uploads_throw)
                Sample.patch_by_owner Sample.shelf))
     = db Sample.shelf
  /\ fst (updateBook (Sample.env Sample.document_upload_throws)
            Sample.patch_by_owner Sample.shelf)
     = Done (NextError 500 "Error uploading book file")
  /\ db (snd (updateBook (Sample.env Sample.document_upload_throws)
                Sample.patch_by_owner Sample.shelf))
     = db Sample.shelf.
Proof.
  assert (Ha : Authorized (Sample.env Sample.uploads_throw)
                 Sample.patch_by_owner Sample.shelf Sample.stored)
    by (repeat split).
  assert (Ha' : Authorized (Sample.env Sample.document_upload_throws)
                  Sample.patch_by_owner Sample.shelf Sample.stored)
    by (repeat split).
  split; [exact Ha|].
  destruct (updateBook_upload_failure (Sample.env Sample.uploads_throw)
              Sample.patch_by_owner Sample.shelf Sample.stored Ha)
    as [Hcover _].
  destruct (updateBook_upload_failure
              (Sample.env Sample.document_upload_throws)
              Sample.patch_by_owner Sample.shelf Sample.stored Ha')
    as [_ Hdoc].
  rewrite (Hcover Sample.cover Sample.timeout eq_refl eq_refl);
    [| apply (bool_decide_unpack _); vm_compute; exact I | reflexivity].
  set (r := updateBook_cover (Sample.env Sample.document_upload_throws)
              (req_files Sample.patch_by_owner)
              (looked_up Sample.patch_by_owner Sample.shelf)).
  assert (Hr : r = (Val Sample.cover_url, snd r))
    by (vm_compute; reflexivity).
  destruct (Hdoc Sample.document Sample.timeout _ _ Hr eq_refl eq_refl)
    as [-> _];
    [apply (bool_decide_unpack _); vm_compute; exact I | reflexivity |].
  repeat split.
Defined.

(** C10. In an [updateBook] request of the record's author, when an upload
    succeeds and the unlink of the uploaded temporary file then throws, the
    [catch] around the upload completes the request with the 500 upload
    error of that file: the object has been uploaded, [findOneAndUpdate] is
    not called and the catalog is as before. This holds for the cover and,
    once the cover block has completed, for the document. *)
Theorem updateBook_unlink_failure
    (env : Env) (req : Request) (w : World) (book : Book) :
  Authorized env req w book ->
  (forall cover err,
     cover_of req = Some cover ->
     Js.startsWith (mimetype cover) "image/" = true ->
     let cp := updatePath env (filename cover) in
     cp ∈ fs w ->
     fault env (trace w ++ [FindOne (params_bookId req); ExistsSync cp])
       (Upload cp (coverOptions cover)) = None ->
     fault env
       (trace w ++ [FindOne (params_bookId req); ExistsSync cp;
                    Upload cp (coverOptions cover)])
       (Unlink cp) = Some err ->
     updateBook env req w
     = (Done (NextError 500 "Error uploading cover image"),
        mkWorld (fs w) (db w)
          (trace w ++ [FindOne (params_bookId req); ExistsSync cp;
                       Upload cp (coverOptions cover); Unlink cp])))
  /\ (forall doc err url w1,
        updateBook_cover env (req_files req) (looked_up req w) = (Val url, w1) ->
        document_of req = Some doc ->
        mimetype doc = "application/pdf" ->
        let dp := updatePath env (filename doc) in
        dp ∈ fs w1 ->
        fault env (trace w1 ++ [ExistsSync dp]) (Upload dp (bookOptions doc))
        = None ->
        fault env (trace w1 ++ [ExistsSync dp; Upload dp (bookOptions doc)])
          (Unlink dp) = Some err ->
        updateBook env req w
        = (Done (NextError 500 "Error uploading book file"),
           mkWorld (fs w1) (db w)
             (trace w1 ++ [ExistsSync dp; Upload dp (bookOptions doc);
                           Unlink dp]))
        /\ catalog_writes (trace w1) = catalog_writes (trace w)).
Proof.
  intros H. split.
  - intros cover err Hc Himg cp Hin Hup Hun. enter_update H.
    unfold updateBook_cover. rewrite first_file_cover, Hc, Himg.
    cbn [negb]. rewrite bind_run. unfold existsSync at 1.
    cbn [fs record]. rewrite bool_decide_eq_true_2 by assumption.
    cbn [negb]. rewrite try_catch_run, bind_run.
    unfold cloudinary_upload at 1. cbn [trace record].
    rewrite <- app_assoc. cbn [app]. fold cp. rewrite Hup.
    rewrite bind_run. unfold unlink at 1. cbn [trace record fs].
    rewrite bool_decide_eq_true_2 by assumption.
    rewrite <- !app_assoc. cbn [app]. rewrite Hun.
    unfold record. cbn. rewrite <- !app_assoc. reflexivity.
  - intros doc err url w1 Hcover Hd Hpdf dp Hin Hup Hun.
    destruct (updateBook_cover_no_catalog_write _ _ _ _ _ Hcover)
      as [Hdb1 Hw1].
    split.
    2:{ rewrite Hw1. unfold looked_up, record, catalog_writes. cbn.
        rewrite List.filter_app. cbn. apply app_nil_r. }
    enter_update H. fold (looked_up req w). rewrite Hcover.
    rewrite bind_run. unfold updateBook_file.
    rewrite first_file_document, Hd, Hpdf, String.eqb_refl.
    cbn [negb]. rewrite bind_run. unfold existsSync at 1.
    rewrite bool_decide_eq_true_2 by assumption.
    cbn [negb]. rewrite try_catch_run, bind_run.
    unfold cloudinary_upload at 1. cbn [trace record]. fold dp. rewrite Hup.
    rewrite bind_run. unfold unlink at 1. cbn [trace record fs].
    rewrite bool_decide_eq_true_2 by assumption.
    rewrite <- !app_assoc. cbn [app]. rewrite Hun.
    unfold record. cbn. rewrite <- !app_assoc, Hdb1. reflexivity.
Qed.

Lemma updateBook_unlink_failure_witness :
  Authorized (Sample.env Sample.unlinks_throw) Sample.patch_by_owner
    Sample.shelf Sample.stored
  /\ fst (updateBook (Sample.env Sample.unlinks_throw) Sample.patch_by_owner
            Sample.shelf)
     = Done (NextError 500 "Error uploading cover image")
  /\ db (snd (updateBook (Sample.env Sample.unlinks_throw)
                Sample.patch_by_owner Sample.shelf))
     = db Sample.shelf
  /\ fst (updateBook (Sample.env Sample.document_unlink_throws)
            Sample.patch_by_owner Sample.shelf)
     = Done (NextError 500 "Error uploading book file")
  /\ db (snd (updateBook (Sample.env Sample.document_unlink_throws)
                Sample.patch_by_owner Sample.shelf))
     = db Sample.shelf.
Proof.
  assert (Ha : Authorized (Sample.env Sample.unlinks_throw)
                 Sample.patch_by_owner Sample.shelf Sample.stored)
    by (repeat split).
  assert (Ha' : Authorized (Sample.env Sample.document_unlink_throws)
                  Sample.patch_by_owner Sample.shelf Sample.stored)
    by (repeat split).
  split; [exact Ha|].
  destruct (updateBook_unlink_failure (Sample.env Sample.unlinks_throw)
              Sample.patch_by_owner Sample.shelf Sample.stored Ha)
    as [Hcover _].
  destruct (updateBook_unlink_failure
              (Sample.env Sample.document_unlink_throws)
              Sample.patch_by_owner Sample.shelf Sample.stored Ha')
    as [_ Hdoc].
  rewrite (Hcover Sample.cover Sample.eperm eq_refl eq_refl);
    [| apply (bool_decide_unpack _); vm_compute; exact I
     | reflexivity | reflexivity].
  set (r := updateBook_cover (Sample.env Sample.document_unlink_throws)
              (req_files Sample.patch_by_owner)
              (looked_up Sample.patch_by_owner Sample.shelf)).
  assert (Hr : r = (Val Sample.cover_url, snd r))
    by (vm_compute; reflexivity).
  destruct (Hdoc Sample.document Sample.eperm _ _ Hr eq_refl eq_refl)
    as [-> _];
    [apply (bool_decide_unpack _); vm_compute; exact I
    | reflexivity | reflexivity |].
  repeat split.
Defined.

(** ** [updateBook]: content-type errors *)

(** C5 (as amended). In an [updateBook] request of the record's author, a
    cover file that is not an image is reported (400) right after the lookup
    of the record, before any call to the remote store. A document file that
    is not a PDF is reported (400) once the cover block has completed and
    before anything else is called: with no cover file in the request that is
    right after the lookup, with a cover file it is after the check, upload
    and unlink of the cover. *)
Theorem updateBook_type_errors
    (env : Env) (req : Request) (w : World) (book : Book) :
  Authorized env req w book ->
  (forall cover,
     cover_of req = Some cover ->
     Js.startsWith (mimetype cover) "image/" = false ->
     updateBook env req w
     = (Done (NextError 400 "Cover image must be an image file"),
        looked_up req w))
  /\ (forall doc url w1,
        updateBook_cover env (req_files req) (looked_up req w) = (Val url, w1) ->
        document_of req = Some doc ->
        mimetype doc <> "application/pdf" ->
        updateBook env req w
        = (Done (NextError 400 "Book file must be a PDF"), w1)
        /\ (cover_of req = None -> w1 = looked_up req w)
        /\ (forall cover,
              cover_of req = Some cover ->
              let cp := updatePath env (filename cover) in
              trace w1
              = (trace w ++ [FindOne (params_bookId req); ExistsSync cp;
                             Upload cp (coverOptions cover); Unlink cp])%list)).
Proof.
  intros H. split.
  - intros cover Hc Himg. enter_update H.
    unfold updateBook_cover. rewrite first_file_cover, Hc, Himg.
    reflexivity.
  - intros doc url w1 Hcover Hd Hpdf. split; [|split].
    + enter_update H. fold (looked_up req w). rewrite Hcover.
      rewrite bind_run. unfold updateBook_file.
      rewrite first_file_document, Hd.
      rewrite (eqb_author_mismatch _ _ Hpdf). reflexivity.
    + intros Hnone.
      apply updateBook_cover_completes in Hcover.
      rewrite first_file_cover, Hnone in Hcover.
      destruct Hcover as [(_ & _ & ->)|(c & [=] & _)]. reflexivity.
    + intros cover Hc cp.
      apply updateBook_cover_completes in Hcover.
      rewrite first_file_cover, Hc in Hcover.
      destruct Hcover as [([=] & _)|(c & [= <-] & _ & _ & ->)].
      cbn. rewrite <- app_assoc. reflexivity.
Qed.

Lemma updateBook_type_errors_witness :
  Authorized (Sample.env Sample.no_fault) Sample.patch_text_document
    Sample.shelf Sample.stored
  /\ fst (updateBook (Sample.env Sample.no_fault) Sample.patch_text_document
            Sample.shelf)
     = Done (NextError 400 "Book file must be a PDF").
Proof.
  assert (Ha : Authorized (Sample.env Sample.no_fault)
                 Sample.patch_text_document Sample.shelf Sample.stored)
    by (repeat split).
  split; [exact Ha|].
  destruct (updateBook_type_errors (Sample.env Sample.no_fault)
              Sample.patch_text_document Sample.shelf Sample.stored Ha)
    as [_ Hdoc].
  destruct (Hdoc Sample.text_document _ _ eq_refl eq_refl) as [-> _].
  - discriminate.
  - reflexivity.
Defined.

(** C5 (as stated) does not hold: with a valid cover and a document declared
    as plain text, the cover has been uploaded to the remote store when the
    content-type error of the document is reported. *)
Lemma updateBook_type_error_after_upload :
  ~ (forall env req w book doc,
       Authorized env req w book ->
       document_of req = Some doc ->
       mimetype doc <> "application/pdf" ->
       fst (updateBook env req w)
       = Done (NextError 400 "Book file must be a PDF") ->
       remote_calls (trace (snd (updateBook env req w)))
       = remote_calls (trace w)).
Proof.
  intros H.
  specialize (H (Sample.env Sample.no_fault) Sample.patch_text_document
                Sample.shelf Sample.stored Sample.text_document).
  assert (Hcalls : remote_calls
                     (trace (snd (updateBook (Sample.env Sample.no_fault)
                                    Sample.patch_text_document Sample.shelf)))
                   = [Upload Sample.newCoverPath (coverOptions Sample.cover)])
    by (vm_compute; reflexivity).
  rewrite Hcalls in H. discriminate H.
  - repeat split.
  - reflexivity.
  - discriminate.
  - vm_compute. reflexivity.
Qed.

(** ** [deleteBook] *)

(** The course of a [deleteBook] request of the record's author. *)
Lemma deleteBook_run
    (env : Env) (req : Request) (w : World) (book : Book) :
  Authorized env req w book ->
  let id := params_bookId req in
  let img := Destroy (coverImagePublicId (book_coverImage book)) None in
  let raw := Destroy (bookFilePublicId (book_file book)) (Some "raw") in
  exists o w' destroyed,
    deleteBook env req w = (o, w')
    /\ trace w' = (trace w ++ [FindOne id] ++ destroyed ++ [DeleteOne id])%list
    /\ (destroyed = [img] \/ destroyed = [img; raw])
    /\ (fault env (trace w ++ [FindOne id]) img = None ->
        destroyed = [img; raw])
    /\ fs w' = fs w
    /\ (fault env (trace w ++ [FindOne id] ++ destroyed) (DeleteOne id) = None ->
        o = Done (SendStatus 204)
        /\ db w' = delete id (db w)
        /\ db w' !! id = None).
Proof.
  intros [[Hfault Hdb] Hauth] id img raw.
  unfold deleteBook. rewrite try_catch_run, bind_run.
  unfold bookModel_findOne at 1. fold id. fold id in Hfault, Hdb.
  rewrite Hfault, Hdb, Hauth, String.eqb_refl.
  cbv beta iota. cbn [negb]. rewrite bind_run, try_catch_run, bind_run.
  unfold cloudinary_destroy at 1. cbn [trace record]. fold img.
  destruct (fault env (trace w ++ [FindOne id]) img) as [e1|] eqn:F1.
  - cbv beta iota. unfold ret at 1. rewrite bind_run.
    unfold bookModel_deleteOne. cbn [trace record fs db].
    rewrite <- !app_assoc. cbn [app].
    destruct (fault env (trace w ++ [FindOne id; img]) (DeleteOne id))
      as [e|] eqn:F3.
    + eexists _, _, [img]. split; [reflexivity|]. cbn.
      rewrite <- ?app_assoc. cbn.
      split; [reflexivity|]. split; [left; reflexivity|].
      split; [discriminate|]. split; [reflexivity|].
      rewrite F3. discriminate.
    + eexists _, _, [img]. split; [reflexivity|]. cbn.
      rewrite <- ?app_assoc. cbn.
      split; [reflexivity|]. split; [left; reflexivity|].
      split; [discriminate|]. split; [reflexivity|].
      intros _. split; [reflexivity|]. split; [reflexivity|].
      apply lookup_delete_eq.
  - cbv beta iota. unfold cloudinary_destroy at 1. cbn [trace record].
    fold raw. rewrite <- !app_assoc. cbn [app].
    destruct (fault env (trace w ++ [FindOne id; img]) raw) as [e2|];
      cbv beta iota; unfold ret; rewrite bind_run;
      unfold bookModel_deleteOne; cbn [trace record fs db];
      rewrite <- !app_assoc; cbn [app];
      destruct (fault env (trace w ++ [FindOne id; img; raw]) (DeleteOne id))
        as [e|] eqn:F3;
      eexists _, _, [img; raw]; (split; [reflexivity|]); cbn;
      rewrite <- ?app_assoc; cbn;
      (split; [reflexivity|]); (split; [right; reflexivity|]);
      (split; [reflexivity|]); (split; [reflexivity|]);
      rewrite ?F3; try discriminate;
      intros _; (split; [reflexivity|]); (split; [reflexivity|]);
      apply lookup_delete_eq.
Qed.

(** C6. In a [deleteBook] request of the record's author, the image object
    and then (if the first deletion did not throw) the raw object are asked
    to be destroyed; whether or not one of these throws, [deleteOne] is
    called next, and when it does not throw the request is answered 204 and
    the record is no longer in the catalog. *)
Theorem deleteBook_swallows_remote_failures
    (env : Env) (req : Request) (w : World) (book : Book) :
  Authorized env req w book ->
  let id := params_bookId req in
  let img := Destroy (coverImagePublicId (book_coverImage book)) None in
  let raw := Destroy (bookFilePublicId (book_file book)) (Some "raw") in
  exists o w' destroyed,
    deleteBook env req w = (o, w')
    /\ trace w' = (trace w ++ [FindOne id] ++ destroyed ++ [DeleteOne id])%list
    /\ (destroyed = [img] \/ destroyed = [img; raw])
    /\ (fault env (trace w ++ [FindOne id]) img = None ->
        destroyed = [img; raw])
    /\ fs w' = fs w
    /\ (fault env (trace w ++ [FindOne id] ++ destroyed) (DeleteOne id) = None ->
        o = Done (SendStatus 204)
        /\ db w' = delete id (db w)
        /\ db w' !! id = None).
Proof. exact (deleteBook_run env req w book). Qed.

Lemma deleteBook_swallows_remote_failures_witness :
  Authorized (Sample.env Sample.raw_destroy_throws) Sample.remove
    Sample.shelf Sample.stored
  /\ fst (deleteBook (Sample.env Sample.raw_destroy_throws) Sample.remove
            Sample.shelf)
     = Done (SendStatus 204)
  /\ db (snd (deleteBook (Sample.env Sample.raw_destroy_throws)
                Sample.remove Sample.shelf))
     !! book_id Sample.stored = None.
Proof.
  assert (Ha : Authorized (Sample.env Sample.raw_destroy_throws)
                 Sample.remove Sample.shelf Sample.stored)
    by (repeat split).
  split; [exact Ha|].
  destruct (deleteBook_swallows_remote_failures
              (Sample.env Sample.raw_destroy_throws) Sample.remove
              Sample.shelf Sample.stored Ha)
    as (o & w' & destroyed & -> & _ & _ & _ & _ & Hok).
  destruct Hok as (-> & _ & Hgone); [reflexivity|].
  split; [reflexivity | exact Hgone].
Defined.

(** ** Public identifiers derived from the stored URLs *)

Lemma split_nonempty (c : ascii) (s : string) : Js.split c s <> [].
Proof.
  destruct s as [|x s]; simpl; [discriminate|].
  destruct (Ascii.eqb x c); [discriminate|].
  destruct (Js.split c s); discriminate.
Qed.

Lemma split_app (c : ascii) (a b : string) :
  Js.split c (a +:+ String c b) = (Js.split c a ++ Js.split c b)%list.
Proof.
  induction a as [|x a IH]; simpl.
  - rewrite Ascii.eqb_refl. reflexivity.
  - destruct (Ascii.eqb x c); rewrite IH; [reflexivity|].
    pose proof (split_nonempty c a) as Hne.
    destruct (Js.split c a); [contradiction | reflexivity].
Qed.

Lemma split_free (c : ascii) (s : string) :
  free_of c s = true -> Js.split c s = [s].
Proof.
  induction s as [|x s IH]; simpl; [reflexivity|].
  intros [Hx Hs]%andb_true_iff. apply negb_true_iff in Hx.
  rewrite Hx, (IH Hs). reflexivity.
Qed.

Lemma free_of_app (c : ascii) (a b : string) :
  free_of c a = true -> free_of c b = true -> free_of c (a +:+ b) = true.
Proof.
  induction a as [|x a IH]; simpl; [auto|].
  intros [Hx Ha]%andb_true_iff Hb. rewrite Hx. simpl. auto.
Qed.

Lemma at_last_two {A} (l : list A) (a b : A) :
  Js.at_ (l ++ [a; b]) (-2) = Some a /\ Js.at_ (l ++ [a; b]) (-1) = Some b.
Proof.
  unfold Js.at_. rewrite length_app. cbn [length].
  rewrite Nat2Z.inj_add. change (Z.of_nat 2) with 2. cbn [Z.ltb Z.compare].
  split.
  - replace (Z.of_nat (length l) + 2 + -2) with (Z.of_nat (length l)) by lia.
    destruct (Z.ltb_spec (Z.of_nat (length l)) 0); [lia|].
    destruct (Z.leb_spec (Z.of_nat (length l) + 2) (Z.of_nat (length l)));
      [lia|].
    cbn [orb]. rewrite Nat2Z.id.
    rewrite nth_error_app2 by lia. rewrite Nat.sub_diag. reflexivity.
  - replace (Z.of_nat (length l) + 2 + -1)
      with (Z.of_nat (S (length l))) by lia.
    destruct (Z.ltb_spec (Z.of_nat (S (length l))) 0); [lia|].
    destruct (Z.leb_spec (Z.of_nat (length l) + 2) (Z.of_nat (S (length l))));
      [lia|].
    cbn [orb]. rewrite Nat2Z.id.
    rewrite nth_error_app2 by lia.
    replace (S (length l) - length l)%nat with 1%nat by lia. reflexivity.
Qed.

Lemma split_last_two (base folder last : string) :
  free_of "/" folder = true ->
  free_of "/" last = true ->
  exists l,
    Js.split "/" (base +:+ "/" +:+ folder +:+ "/" +:+ last)
    = (l ++ [folder; last])%list.
Proof.
  intros Hf Hl. exists (Js.split "/" base).
  change ("/" +:+ folder +:+ "/" +:+ last)
    with (String "/" (folder +:+ String "/" last)).
  rewrite !split_app, (split_free _ _ Hf), (split_free _ _ Hl).
  reflexivity.
Qed.

(** Under the shape [.../<folder>/<name>.<ext>] the identifier derived for
    the image is [<folder>/<name>]. *)
Lemma coverImagePublicId_shape (url folder name ext : string) :
  ImageUrlShape url folder name ext ->
  coverImagePublicId url = folder +:+ "/" +:+ name.
Proof.
  intros (base & -> & Hf & Hn1 & Hn2 & He1 & He2).
  unfold coverImagePublicId.
  destruct (split_last_two base folder (name +:+ "." +:+ ext) Hf) as [l ->].
  { apply free_of_app; [assumption|]. simpl. exact He1. }
  destruct (at_last_two l folder (name +:+ "." +:+ ext)) as [-> ->].
  simpl.
  change ("." +:+ ext) with (String "." ext).
  rewrite split_app, (split_free _ _ Hn2), (split_free _ _ He2).
  reflexivity.
Qed.

(** Under the shape [.../<folder>/<name>] the identifier derived for the raw
    object is [<folder>/<name>]. *)
Lemma bookFilePublicId_shape (url folder name : string) :
  RawUrlShape url folder name ->
  bookFilePublicId url = folder +:+ "/" +:+ name.
Proof.
  intros (base & -> & Hf & Hn).
  unfold bookFilePublicId.
  destruct (split_last_two base folder name Hf Hn) as [l ->].
  destruct (at_last_two l folder name) as [-> ->].
  reflexivity.
Qed.

(** Outside that shape the derivation keeps only the piece before the last
    dot: a further dot in the name cuts it. *)
Remark coverImagePublicId_dotted_name :
  coverImagePublicId
    "https://res.cloudinary.com/demo/image/upload/v1712/book-covers/a.b.jpg"
  = "book-covers/b".
Proof. reflexivity. Qed.

(** C9. Let a validated [createBook] request succeed and store a record whose
    cover URL has the shape [.../<folder>/<name>.<ext>] and whose file URL
    the shape [.../<folder'>/<name'>]. The identifiers derived from the two
    stored URLs are [<folder>/<name>] and [<folder'>/<name'>], and these are
    what a following [deleteBook] of that record by its author asks the
    remote store to destroy: the image identifier first and, unless that
    deletion throws, the raw identifier with resource type ["raw"]. *)
Theorem createBook_deleteBook_round_trip
    (env : Env) (req req' : Request) (w : World) (cover doc : MulterFile)
    (folder name ext folder' name' : string) :
  Validated env req w cover doc ->
  TrySucceeds env req cover doc (checked env cover doc w) ->
  let fields := newRecord env req cover doc (checked env cover doc w) in
  ImageUrlShape (new_coverImage fields) folder name ext ->
  RawUrlShape (new_file fields) folder' name' ->
  forall id w1,
    createBook env req w = (Done (StatusJson 201 (IdBody id)), w1) ->
    params_bookId req' = id ->
    userId req' = userId req ->
    fault env (trace w1) (FindOne id) = None ->
    let img := Destroy (folder +:+ "/" +:+ name) None in
    let raw := Destroy (folder' +:+ "/" +:+ name') (Some "raw") in
    (exists book,
       db w1 !! id = Some book
       /\ book_coverImage book = new_coverImage fields
       /\ book_file book = new_file fields
       /\ img = Destroy (coverImagePublicId (book_coverImage book)) None
       /\ raw = Destroy (bookFilePublicId (book_file book)) (Some "raw"))
    /\ exists o w2 destroyed,
         deleteBook env req' w1 = (o, w2)
         /\ trace w2
            = (trace w1 ++ [FindOne id] ++ destroyed ++ [DeleteOne id])%list
         /\ (destroyed = [img] \/ destroyed = [img; raw])
         /\ (fault env (trace w1 ++ [FindOne id]) img = None ->
             destroyed = [img; raw]).
Proof.
  intros Hv Hs fields Himg Hraw id w1 Hrun Hid Huser Hfind img raw.
  destruct (createBook_success_run env req w cover doc Hv Hs)
    as (w' & cleanup & Hrun' & Hdb & _).
  rewrite Hrun in Hrun'. injection Hrun' as Hid' <-.
  fold fields in Hdb, Hid'. rewrite <- Hid' in Hdb.
  assert (Hbook : db w1 !! id = Some (mkBook id fields))
    by (rewrite Hdb; apply lookup_insert_eq).
  assert (Hi : coverImagePublicId (new_coverImage fields)
               = folder +:+ "/" +:+ name)
    by (apply (coverImagePublicId_shape _ _ _ ext), Himg).
  assert (Hr : bookFilePublicId (new_file fields) = folder' +:+ "/" +:+ name')
    by (apply bookFilePublicId_shape, Hraw).
  split.
  - exists (mkBook id fields). cbn [mkBook book_coverImage book_file].
    rewrite Hi, Hr. repeat split. exact Hbook.
  - assert (Ha : Authorized env req' w1 (mkBook id fields)).
    { repeat split; rewrite ?Hid; try assumption. cbn. symmetry. exact Huser. }
    destruct (deleteBook_run env req' w1 (mkBook id fields) Ha)
      as (o & w2 & destroyed & Hdel & Htrace & Hcases & Hboth & _).
    cbn [mkBook book_coverImage book_file] in Htrace, Hcases, Hboth.
    rewrite Hi, Hr, Hid in *.
    exists o, w2, destroyed. auto.
Qed.

Lemma createBook_deleteBook_round_trip_witness :
  exists w1 o w2,
    createBook (Sample.env Sample.no_fault) Sample.dune Sample.staged
    = (Done (StatusJson 201 (IdBody "6611a0f2c3")), w1)
    /\ deleteBook (Sample.env Sample.no_fault) Sample.remove w1 = (o, w2)
    /\ remote_calls (trace w2)
       = (remote_calls (trace w1)
          ++ [Destroy "book-covers/c0ffee" None;
              Destroy "book-pdfs/d0c5.pdf" (Some "raw")])%list.
Proof.
  assert (Hv : Validated (Sample.env Sample.no_fault) Sample.dune
                 Sample.staged Sample.cover Sample.document)
    by (repeat split; vm_compute; reflexivity).
  assert (Hs : TrySucceeds (Sample.env Sample.no_fault) Sample.dune
                 Sample.cover Sample.document
                 (checked (Sample.env Sample.no_fault) Sample.cover
                    Sample.document Sample.staged))
    by (repeat split).
  set (w1 := snd (createBook (Sample.env Sample.no_fault) Sample.dune
                    Sample.staged)).
  assert (Hrun : createBook (Sample.env Sample.no_fault) Sample.dune
                   Sample.staged
                 = (Done (StatusJson 201 (IdBody "6611a0f2c3")), w1))
    by (vm_compute; reflexivity).
  destruct (createBook_deleteBook_round_trip
              (Sample.env Sample.no_fault) Sample.dune Sample.remove
              Sample.staged Sample.cover Sample.document
              "book-covers" "c0ffee" "jpg" "book-pdfs" "d0c5.pdf" Hv Hs)
    with (id := "6611a0f2c3") (w1 := w1)
    as (_ & o & w2 & destroyed & Hdel & Htrace & _ & Hboth);
    try reflexivity; try exact Hrun.
  - exists "https://res.cloudinary.com/demo/image/upload/v1712".
    repeat split.
  - exists "https://res.cloudinary.com/demo/raw/upload/v1712". repeat split.
  - exists w1, o, w2. split; [exact Hrun|]. split; [exact Hdel|].
    rewrite Htrace, (Hboth eq_refl). unfold remote_calls.
    rewrite !List.filter_app. reflexivity.
Defined.

(** * Further properties of the handlers *)

(** ** Footprints compose *)

Section Keeping.

Context (R : World -> World -> Prop).
Hypothesis R_refl : forall w, R w w.
Hypothesis R_trans : forall w1 w2 w3, R w1 w2 -> R w2 w3 -> R w1 w3.

Lemma keeps_ret {A} (a : A) : Keeps R (ret a).
Proof. intros w. apply R_refl. Qed.

Lemma keeps_finish {A} (r : Reply) : Keeps R (@finish A r).
Proof. intros w. apply R_refl. Qed.

Lemma keeps_bind {A B} (m : M A) (k : A -> M B) :
  Keeps R m -> (forall a, Keeps R (k a)) -> Keeps R (m ≫= k).
Proof.
  intros Hm Hk w. rewrite bind_run. specialize (Hm w).
  destruct (m w) as [[a|e|r] w1]; simpl in *; try assumption.
  eapply R_trans; [exact Hm | apply Hk].
Qed.

Lemma keeps_try_catch {A} (body : M A) (handler : Js.Error -> M A) :
  Keeps R body -> (forall e, Keeps R (handler e)) ->
  Keeps R (try_catch body handler).
Proof.
  intros Hb Hh w. rewrite try_catch_run. specialize (Hb w).
  destruct (body w) as [[a|e|r] w1]; simpl in *; try assumption.
  eapply R_trans; [exact Hb | apply Hh].
Qed.

Lemma keeps_when (b : bool) (m : M unit) : Keeps R m -> Keeps R (when_ b m).
Proof. intros Hm. destruct b; [exact Hm | apply keeps_ret]. Qed.

End Keeping.

Lemma footprint_refl (allowed : Event -> bool) (files ids : string -> Prop)
    (w : World) :
  Footprint allowed files ids w w.
Proof.
  repeat split; auto. exists []. rewrite app_nil_r. auto.
Qed.

Lemma footprint_trans (allowed : Event -> bool) (files ids : string -> Prop)
    (w1 w2 w3 : World) :
  Footprint allowed files ids w1 w2 ->
  Footprint allowed files ids w2 w3 ->
  Footprint allowed files ids w1 w3.
Proof.
  intros ((t & Ht & Ha) & Hin & Hout & Hdb)
         ((t' & Ht' & Ha') & Hin' & Hout' & Hdb').
  repeat split; auto.
  - exists (t ++ t')%list. rewrite Ht', Ht, <- app_assoc.
    rewrite forallb_app, Ha, Ha'. auto.
  - intros j Hj. rewrite Hdb', Hdb; auto.
Qed.

Lemma footprint_call (allowed : Event -> bool) (files ids : string -> Prop)
    (e : Event) (w : World) :
  allowed e = true -> Footprint allowed files ids w (record e w).
Proof.
  intros He. repeat split; auto. exists [e]. simpl. rewrite He. auto.
Qed.

Section Calls.

Context (env : Env) (allowed : Event -> bool) (files ids : string -> Prop).

Lemma keeps_existsSync (p : string) :
  allowed (ExistsSync p) = true ->
  Keeps (Footprint allowed files ids) (existsSync p).
Proof. intros He w. apply footprint_call, He. Qed.

Lemma keeps_unlink (p : string) :
  allowed (Unlink p) = true -> files p ->
  Keeps (Footprint allowed files ids) (unlink env p).
Proof.
  intros He Hp w. unfold unlink.
  destruct (bool_decide (p ∈ fs w)); [|apply footprint_call, He].
  destruct (fault env (trace w) (Unlink p)); [apply footprint_call, He|].
  simpl. repeat split; simpl; auto.
  - exists [Unlink p]. simpl. rewrite He. auto.
  - intros q. rewrite elem_of_difference. tauto.
  - intros q Hq Hf. rewrite elem_of_difference, elem_of_singleton.
    split; [exact Hq | congruence].
Qed.

Lemma keeps_upload (p : string) (o : UploadOptions) :
  allowed (Upload p o) = true ->
  Keeps (Footprint allowed files ids) (cloudinary_upload env p o).
Proof.
  intros He w. unfold cloudinary_upload.
  destruct (fault env (trace w) (Upload p o)); apply footprint_call, He.
Qed.

Lemma keeps_destroy (public_id : string) (rtype : option string) :
  allowed (Destroy public_id rtype) = true ->
  Keeps (Footprint allowed files ids) (cloudinary_destroy env public_id rtype).
Proof.
  intros He w. unfold cloudinary_destroy.
  destruct (fault env (trace w) (Destroy public_id rtype));
    apply footprint_call, He.
Qed.

Lemma keeps_findOne (id : string) :
  allowed (FindOne id) = true ->
  Keeps (Footprint allowed files ids) (bookModel_findOne env id).
Proof.
  intros He w. unfold bookModel_findOne.
  destruct (fault env (trace w) (FindOne id)); apply footprint_call, He.
Qed.

Lemma keeps_create (f : BookFields) :
  allowed (Create f) = true ->
  (forall t, ids (new_id env t f)) ->
  Keeps (Footprint allowed files ids) (bookModel_create env f).
Proof.
  intros He Hid w. unfold bookModel_create.
  destruct (fault env (trace w) (Create f)); [apply footprint_call, He|].
  simpl. repeat split; simpl; auto.
  - exists [Create f]. simpl. rewrite He. auto.
  - intros j Hj. apply lookup_insert_ne. intros <-. apply Hj, Hid.
Qed.

Lemma keeps_findOneAndUpdate (id : string) (upd : BookUpdate) :
  allowed (FindOneAndUpdate id upd) = true -> ids id ->
  Keeps (Footprint allowed files ids) (bookModel_findOneAndUpdate env id upd).
Proof.
  intros He Hid w. unfold bookModel_findOneAndUpdate.
  destruct (fault env (trace w) (FindOneAndUpdate id upd));
    [apply footprint_call, He|].
  destruct (db w !! id); [|apply footprint_call, He].
  simpl. repeat split; simpl; auto.
  - exists [FindOneAndUpdate id upd]. simpl. rewrite He. auto.
  - intros j Hj. apply lookup_insert_ne. intros <-. apply Hj, Hid.
Qed.

Lemma keeps_deleteOne (id : string) :
  allowed (DeleteOne id) = true -> ids id ->
  Keeps (Footprint allowed files ids) (bookModel_deleteOne env id).
Proof.
  intros He Hid w. unfold bookModel_deleteOne.
  destruct (fault env (trace w) (DeleteOne id)); [apply footprint_call, He|].
  simpl. repeat split; simpl; auto.
  - exists [DeleteOne id]. simpl. rewrite He. auto.
  - intros j Hj. apply lookup_delete_ne. intros <-. apply Hj, Hid.
Qed.

End Calls.

(** One step of a footprint proof: split the computation at its head. *)
Ltac keeps_step :=
  lazymatch goal with
  | |- Keeps _ (ret _) => apply keeps_ret, footprint_refl
  | |- Keeps _ (finish _) => apply keeps_finish, footprint_refl
  | |- Keeps _ (next _ _) => apply keeps_finish, footprint_refl
  | |- Keeps _ (when_ _ _) => apply keeps_when; [apply footprint_refl|]
  | |- Keeps _ (_ ≫= _) =>
      apply keeps_bind; [apply footprint_trans| |intros ?]
  | |- Keeps _ (try_catch _ _) =>
      apply keeps_try_catch; [apply footprint_trans| |intros ?]
  | |- Keeps _ (existsSync _) => apply keeps_existsSync; reflexivity
  | |- Keeps _ (unlink _ _) => apply keeps_unlink; [reflexivity|]
  | |- Keeps _ (cloudinary_upload _ _ _) => apply keeps_upload; reflexivity
  | |- Keeps _ (cloudinary_destroy _ _ _) => apply keeps_destroy
  | |- Keeps _ (bookModel_findOne _ _) => apply keeps_findOne
  | |- Keeps _ (bookModel_create _ _) => apply keeps_create; [reflexivity|]
  | |- Keeps _ (bookModel_findOneAndUpdate _ _ _) =>
      apply keeps_findOneAndUpdate
  | |- Keeps _ (bookModel_deleteOne _ _) => apply keeps_deleteOne
  | |- Keeps _ (if ?b then _ else _) => destruct b
  | |- Keeps _ (match ?x with _ => _ end) => destruct x
  end.


(** X2. Whatever the request and whatever the collaborators do, [updateBook]
    only looks up and updates the record it names, checks and unlinks files
    and uploads an image into [book-covers] or a raw PDF into [book-pdfs]:
    it never destroys a remote object (a replaced object stays in the
    store), never creates or deletes a record. It creates no file and can
    only remove the request's own two staged files; no record other than the
    one it names can differ afterwards. *)
Theorem updateBook_footprint (env : Env) (req : Request) (w : World) :
  Footprint (update_calls (params_bookId req)) (update_temp_files env req)
    (fun j => j = params_bookId req)
    w (snd (updateBook env req w)).
Proof.
  revert w.
  change (Keeps (Footprint (update_calls (params_bookId req))
                   (update_temp_files env req)
                   (fun j => j = params_bookId req)) (updateBook env req)).
  unfold updateBook, updateBook_cover, updateBook_file.
  rewrite first_file_cover, first_file_document. cbv zeta.
  destruct (cover_of req) as [cover|] eqn:Hc;
    destruct (document_of req) as [doc|] eqn:Hd;
    repeat keeps_step;
    try (simpl; apply bool_decide_eq_true_2; reflexivity);
    try reflexivity;
    solve [left; eauto | right; eauto].
Qed.

(** X3. Whatever the request and whatever the collaborators do, [deleteBook]
    only looks up and deletes the record it names and asks the remote store
    to destroy objects (as an image or as ["raw"]): it never uploads, never
    creates or updates a record, and never checks or unlinks a file. The
    files on disk are as before and no record other than the one it names
    can differ afterwards. *)
Theorem deleteBook_footprint (env : Env) (req : Request) (w : World) :
  Footprint (delete_calls (params_bookId req)) (fun _ => False)
    (fun j => j = params_bookId req)
    w (snd (deleteBook env req w))
  /\ fs (snd (deleteBook env req w)) = fs w.
Proof.
  assert (H : Footprint (delete_calls (params_bookId req)) (fun _ => False)
                (fun j => j = params_bookId req)
                w (snd (deleteBook env req w))).
  { revert w.
    change (Keeps (Footprint (delete_calls (params_bookId req))
                     (fun _ => False) (fun j => j = params_bookId req))
              (deleteBook env req)).
    unfold deleteBook. cbv zeta.
    repeat keeps_step;
      try (simpl; apply bool_decide_eq_true_2; auto);
      reflexivity. }
  split; [exact H|].
  destruct H as (_ & Hin & Hout & _).
  apply set_eq. intros p. split; [apply Hin|].
  intros Hp. apply Hout; auto.
Qed.

(** ** How a handler can end *)

Section Ending.

Context {A : Type} (V : A -> Prop) (E : Prop) (D : Reply -> Prop).





End Ending.



(** The other collaborators return or throw. *)
Section Throwing.

Context (env : Env) (D : Reply -> Prop).








End Throwing.






(** ** [updateBook] and [deleteBook]: the record is missing or the lookup
    throws *)

(** X7. When the lookup of the record named by an [updateBook] or
    [deleteBook] request finds nothing, the request is completed with the 404
    error "Book not found"; the lookup is the only call made and nothing is
    changed. *)
Theorem update_delete_not_found (env : Env) (req : Request) (w : World) :
  fault env (trace w) (FindOne (params_bookId req)) = None ->
  db w !! params_bookId req = None ->
  updateBook env req w
  = (Done (NextError 404 "Book not found"), looked_up req w)
  /\ deleteBook env req w
     = (Done (NextError 404 "Book not found"), looked_up req w).
Proof.
  intros Hfault Hdb. unfold updateBook, deleteBook.
  rewrite !try_catch_run, !bind_run. unfold bookModel_findOne.
  rewrite Hfault, Hdb. split; reflexivity.
Qed.

Lemma update_delete_not_found_witness :
  updateBook (Sample.env Sample.no_fault) Sample.patch_by_owner
    Scenario.empty_shelf
  = (Done (NextError 404 "Book not found"),
     looked_up Sample.patch_by_owner Scenario.empty_shelf).
Proof.
  apply (update_delete_not_found (Sample.env Sample.no_fault)
           Sample.patch_by_owner Scenario.empty_shelf);
    reflexivity.
Defined.

(** X8. When the lookup of the record throws, [updateBook] and [deleteBook]
    complete the request with a 500 error whose message is their own prefix
    followed by the message of the thrown error (["undefined"] when it has
    none); the lookup is the only call made and nothing is changed. *)
Theorem update_delete_lookup_throws
    (env : Env) (req : Request) (w : World) (err : Js.Error) :
  fault env (trace w) (FindOne (params_bookId req)) = Some err ->
  updateBook env req w
  = (Done (NextError 500
             ("Error while updating the book: "
              +:+ Js.to_str (Js.message err))),
     looked_up req w)
  /\ deleteBook env req w
     = (Done (NextError 500
                ("Error while deleting book: "
                 +:+ Js.to_str (Js.message err))),
        looked_up req w).
Proof.
  intros Hfault. unfold updateBook, deleteBook.
  rewrite !try_catch_run, !bind_run. unfold bookModel_findOne.
  rewrite Hfault. split; reflexivity.
Qed.

Lemma update_delete_lookup_throws_witness :
  deleteBook (Sample.env Scenario.lookups_throw) Sample.remove Sample.shelf
  = (Done (NextError 500 "Error while deleting book: connection timed out"),
     looked_up Sample.remove Sample.shelf).
Proof.
  apply (update_delete_lookup_throws (Sample.env Scenario.lookups_throw)
           Sample.remove Sample.shelf Scenario.disconnected).
  reflexivity.
Defined.

(** ** [updateBook]: persisting the update *)

Lemma updateBook_cover_db (env : Env) (files : option Files) (w : World) :
  db (snd (updateBook_cover env files w)) = db w.
Proof.
  unfold updateBook_cover.
  destruct (first_file files coverImage) as [cover|]; [|reflexivity].
  destruct (Js.startsWith (mimetype cover) "image/"); [|reflexivity].
  cbn [negb]. rewrite bind_run. unfold existsSync at 1.
  destruct (bool_decide (updatePath env (filename cover) ∈ fs w));
    [|reflexivity].
  cbn [negb]. rewrite try_catch_run, bind_run.
  unfold cloudinary_upload at 1. cbn [trace record].
  destruct (fault env _ (Upload _ _)); [reflexivity|].
  rewrite bind_run. unfold unlink at 1. cbn [trace record fs].
  destruct (bool_decide _); [|reflexivity].
  destruct (fault env _ (Unlink _)); reflexivity.
Qed.

Lemma updateBook_file_db (env : Env) (files : option Files) (w : World) :
  db (snd (updateBook_file env files w)) = db w.
Proof.
  unfold updateBook_file.
  destruct (first_file files file) as [doc|]; [|reflexivity].
  destruct (String.eqb (mimetype doc) "application/pdf"); [|reflexivity].
  cbn [negb]. rewrite bind_run. unfold existsSync at 1.
  destruct (bool_decide (updatePath env (filename doc) ∈ fs w));
    [|reflexivity].
  cbn [negb]. rewrite try_catch_run, bind_run.
  unfold cloudinary_upload at 1. cbn [trace record].
  destruct (fault env _ (Upload _ _)); [reflexivity|].
  rewrite bind_run. unfold unlink at 1. cbn [trace record fs].
  destruct (bool_decide _); [|reflexivity].
  destruct (fault env _ (Unlink _)); reflexivity.
Qed.

(** Once both replacement blocks have completed, the request stands or falls
    with [findOneAndUpdate]. *)
Lemma updateBook_persists
    (env : Env) (req : Request) (w w1 w2 : World) (book : Book)
    (c f : string) :
  Authorized env req w book ->
  updateBook_cover env (req_files req) (looked_up req w) = (Val c, w1) ->
  updateBook_file env (req_files req) w1 = (Val f, w2) ->
  let id := params_bookId req in
  let upd := updateDocument req book c f in
  updateBook env req w
  = match fault env (trace w2) (FindOneAndUpdate id upd) with
    | Some err =>
        (Done (NextError 500
                 ("Error while updating the book: "
                  +:+ Js.to_str (Js.message err))),
         mkWorld (fs w2) (db w) (trace w2 ++ [FindOneAndUpdate id upd]))
    | None =>
        (Done (Json (BookBody (Some (apply_update env upd book)))),
         mkWorld (fs w2) (<[id := apply_update env upd book]> (db w))
           (trace w2 ++ [FindOneAndUpdate id upd]))
    end.
Proof.
  intros H Hcover Hfile id upd.
  assert (Hdb2 : db w2 = db w).
  { pose proof (updateBook_file_db env (req_files req) w1) as H2.
    pose proof (updateBook_cover_db env (req_files req) (looked_up req w))
      as H1.
    rewrite Hfile in H2. rewrite Hcover in H1. simpl in H1, H2.
    rewrite H2, H1. reflexivity. }
  assert (Hbook : db w2 !! id = Some book)
    by (rewrite Hdb2; apply H).
  enter_update H. fold (looked_up req w). rewrite Hcover.
  rewrite bind_run, Hfile, bind_run.
  unfold bookModel_findOneAndUpdate.
  fold id. change {| upd_title := body_title req;
                     upd_description := body_description req;
                     upd_genre := body_genre req;
                     upd_coverImage := Js.or_else c (book_coverImage book);
                     upd_file := Js.or_else f (book_file book) |}
    with upd.
  destruct (fault env (trace w2) (FindOneAndUpdate id upd)) as [err|].
  - unfold record. rewrite Hdb2. reflexivity.
  - rewrite Hbook, Hdb2. reflexivity.
Qed.

(** X9. In an [updateBook] request of the record's author, once both
    replacement blocks have completed with URLs [c] and [f] (empty when a
    file was not replaced) and [findOneAndUpdate] does not throw, the record
    is replaced in the catalog by the result of one update that carries the
    three text fields of the request as they came and, for each URL, the new
    one if it is not empty and the stored one otherwise; the answer is the
    JSON of the updated record. A stored URL that is not empty is never
    replaced by an empty one. *)
Theorem updateBook_success
    (env : Env) (req : Request) (w w1 w2 : World) (book : Book)
    (c f : string) :
  Authorized env req w book ->
  updateBook_cover env (req_files req) (looked_up req w) = (Val c, w1) ->
  updateBook_file env (req_files req) w1 = (Val f, w2) ->
  let id := params_bookId req in
  let upd := updateDocument req book c f in
  fault env (trace w2) (FindOneAndUpdate id upd) = None ->
  updateBook env req w
  = (Done (Json (BookBody (Some (apply_update env upd book)))),
     mkWorld (fs w2) (<[id := apply_update env upd book]> (db w))
       (trace w2 ++ [FindOneAndUpdate id upd]))
  /\ (book_coverImage book <> "" -> upd_coverImage upd <> "")
  /\ (book_file book <> "" -> upd_file upd <> "").
Proof.
  intros H Hcover Hfile id upd Hok.
  rewrite (updateBook_persists env req w w1 w2 book c f H Hcover Hfile).
  fold id upd. rewrite Hok. split; [reflexivity|].
  unfold upd, updateDocument, Js.or_else. simpl.
  split; intros Hne.
  - destruct (String.eqb_spec c ""); assumption.
  - destruct (String.eqb_spec f ""); assumption.
Qed.

Lemma updateBook_success_witness :
  Authorized (Sample.env Sample.no_fault) Sample.patch_by_owner Sample.shelf
    Sample.stored
  /\ exists w',
       updateBook (Sample.env Sample.no_fault) Sample.patch_by_owner
         Sample.shelf
       = (Done (Json (BookBody
                        (Some (apply_update (Sample.env Sample.no_fault)
                                 (updateDocument Sample.patch_by_owner
                                    Sample.stored Sample.cover_url
                                    Scenario.document_url)
                                 Sample.stored)))),
          w').
Proof.
  assert (Ha : Authorized (Sample.env Sample.no_fault) Sample.patch_by_owner
                 Sample.shelf Sample.stored)
    by (repeat split).
  split; [exact Ha|].
  set (r1 := updateBook_cover (Sample.env Sample.no_fault)
               (req_files Sample.patch_by_owner)
               (looked_up Sample.patch_by_owner Sample.shelf)).
  assert (H1 : r1 = (Val Sample.cover_url, snd r1))
    by (vm_compute; reflexivity).
  set (r2 := updateBook_file (Sample.env Sample.no_fault)
               (req_files Sample.patch_by_owner) (snd r1)).
  assert (H2 : r2 = (Val Scenario.document_url, snd r2))
    by (vm_compute; reflexivity).
  destruct (updateBook_success (Sample.env Sample.no_fault)
              Sample.patch_by_owner Sample.shelf (snd r1) (snd r2)
              Sample.stored Sample.cover_url Scenario.document_url
              Ha H1 H2 eq_refl)
    as [H _].
  eexists. exact H.
Defined.

(** X13. In an [updateBook] request of the record's author, when both
    replacement blocks have completed and [findOneAndUpdate] throws, the
    request is completed with the 500 error "Error while updating the book: "
    followed by the message of the thrown error; the catalog is as before,
    although the uploads of the two blocks have been made and their staged
    files unlinked. *)
Theorem updateBook_persist_failure
    (env : Env) (req : Request) (w w1 w2 : World) (book : Book)
    (c f : string) (err : Js.Error) :
  Authorized env req w book ->
  updateBook_cover env (req_files req) (looked_up req w) = (Val c, w1) ->
  updateBook_file env (req_files req) w1 = (Val f, w2) ->
  let id := params_bookId req in
  let upd := updateDocument req book c f in
  fault env (trace w2) (FindOneAndUpdate id upd) = Some err ->
  updateBook env req w
  = (Done (NextError 500
             ("Error while updating the book: "
              +:+ Js.to_str (Js.message err))),
     mkWorld (fs w2) (db w) (trace w2 ++ [FindOneAndUpdate id upd])).
Proof.
  intros H Hcover Hfile id upd Hko.
  rewrite (updateBook_persists env req w w1 w2 book c f H Hcover Hfile).
  fold id upd. rewrite Hko. reflexivity.
Qed.

Lemma updateBook_cover_runs
    (env : Env) (files : option Files) (w : World) (cover : MulterFile) :
  first_file files coverImage = Some cover ->
  Js.startsWith (mimetype cover) "image/" = true ->
  let cp := updatePath env (filename cover) in
  cp ∈ fs w ->
  fault env (trace w ++ [ExistsSync cp]) (Upload cp (coverOptions cover))
  = None ->
  fault env (trace w ++ [ExistsSync cp; Upload cp (coverOptions cover)])
    (Unlink cp) = None ->
  updateBook_cover env files w
  = (Val (secure_url env (trace w ++ [ExistsSync cp]) cp (coverOptions cover)),
     mkWorld (fs w ∖ {[cp]}) (db w)
       (trace w ++ [ExistsSync cp; Upload cp (coverOptions cover);
                    Unlink cp])).
Proof.
  intros Hc Himg cp Hin Hup Hun. unfold updateBook_cover.
  rewrite Hc, Himg. cbn [negb]. rewrite bind_run. unfold existsSync at 1.
  fold cp. rewrite bool_decide_eq_true_2 by assumption.
  cbn [negb]. rewrite try_catch_run, bind_run.
  unfold cloudinary_upload at 1. cbn [trace record]. rewrite Hup.
  rewrite bind_run. unfold unlink at 1. cbn [trace record fs].
  rewrite bool_decide_eq_true_2 by assumption.
  rewrite <- app_assoc. cbn [app]. rewrite Hun.
  cbn. rewrite <- !app_assoc. reflexivity.
Qed.

Lemma updateBook_file_runs
    (env : Env) (files : option Files) (w : World) (doc : MulterFile) :
  first_file files file = Some doc ->
  mimetype doc = "application/pdf" ->
  let dp := updatePath env (filename doc) in
  dp ∈ fs w ->
  fault env (trace w ++ [ExistsSync dp]) (Upload dp (bookOptions doc))
  = None ->
  fault env (trace w ++ [ExistsSync dp; Upload dp (bookOptions doc)])
    (Unlink dp) = None ->
  updateBook_file env files w
  = (Val (secure_url env (trace w ++ [ExistsSync dp]) dp (bookOptions doc)),
     mkWorld (fs w ∖ {[dp]}) (db w)
       (trace w ++ [ExistsSync dp; Upload dp (bookOptions doc); Unlink dp])).
Proof.
  intros Hd Hpdf dp Hin Hup Hun. unfold updateBook_file.
  rewrite Hd, Hpdf, String.eqb_refl. cbn [negb]. rewrite bind_run.
  unfold existsSync at 1.
  fold dp. rewrite bool_decide_eq_true_2 by assumption.
  cbn [negb]. rewrite try_catch_run, bind_run.
  unfold cloudinary_upload at 1. cbn [trace record]. rewrite Hup.
  rewrite bind_run. unfold unlink at 1. cbn [trace record fs].
  rewrite bool_decide_eq_true_2 by assumption.
  rewrite <- app_assoc. cbn [app]. rewrite Hun.
  cbn. rewrite <- !app_assoc. reflexivity.
Qed.

(** X10. An [updateBook] request of the record's author that carries no file
    makes two calls only, the lookup and one [findOneAndUpdate], whose
    document carries the stored cover and file URLs unchanged: a change of
    the text fields never touches the remote store, the disk or the URLs. *)
Theorem updateBook_text_only
    (env : Env) (req : Request) (w : World) (book : Book) :
  Authorized env req w book ->
  cover_of req = None ->
  document_of req = None ->
  let id := params_bookId req in
  let upd := {| upd_title := body_title req;
                upd_description := body_description req;
                upd_genre := body_genre req;
                upd_coverImage := book_coverImage book;
                upd_file := book_file book |} in
  fault env (trace w ++ [FindOne id]) (FindOneAndUpdate id upd) = None ->
  updateBook env req w
  = (Done (Json (BookBody (Some (apply_update env upd book)))),
     mkWorld (fs w) (<[id := apply_update env upd book]> (db w))
       (trace w ++ [FindOne id; FindOneAndUpdate id upd])).
Proof.
  intros H Hc Hd id upd Hok.
  assert (Hcover : updateBook_cover env (req_files req) (looked_up req w)
                   = (Val "", looked_up req w))
    by (unfold updateBook_cover; rewrite first_file_cover, Hc; reflexivity).
  assert (Hfile : updateBook_file env (req_files req) (looked_up req w)
                  = (Val "", looked_up req w))
    by (unfold updateBook_file; rewrite first_file_document, Hd; reflexivity).
  rewrite (updateBook_persists env req w _ _ book "" "" H Hcover Hfile).
  change (updateDocument req book "" "") with upd.
  cbn [looked_up record trace fs]. fold id. rewrite Hok.
  rewrite <- app_assoc. reflexivity.
Qed.

Lemma updateBook_text_only_witness :
  Authorized (Sample.env Sample.no_fault) Scenario.retitle Sample.shelf
    Sample.stored
  /\ fst (updateBook (Sample.env Sample.no_fault) Scenario.retitle
            Sample.shelf)
     = Done (Json (BookBody
                     (Some {| book_id := "6611a0f2c3";
                              book_title := "Dune (2nd ed.)";
                              book_description := "...";
                              book_genre := "SciFi";
                              book_author := "u1";
                              book_coverImage := Sample.cover_url;
                              book_file := book_file Sample.stored |}))).
Proof.
  assert (Ha : Authorized (Sample.env Sample.no_fault) Scenario.retitle
                 Sample.shelf Sample.stored)
    by (repeat split).
  split; [exact Ha|].
  rewrite (updateBook_text_only (Sample.env Sample.no_fault)
             Scenario.retitle Sample.shelf Sample.stored Ha);
    reflexivity.
Defined.

(** X11. When nothing throws, an [updateBook] request of the record's author
    with a staged image and a staged PDF (under different names) makes its
    calls in this order: lookup; check, upload and unlink of the cover;
    check, upload and unlink of the document; one [findOneAndUpdate] carrying
    the URLs the two uploads returned (each falling back to the stored URL if
    empty). Both staged files are gone, no other file is touched, and the
    answer is the JSON of the updated record. *)
Theorem updateBook_replaces_both
    (env : Env) (req : Request) (w : World) (book : Book)
    (cover doc : MulterFile) :
  (forall t e, fault env t e = None) ->
  db w !! params_bookId req = Some book ->
  book_author book = userId req ->
  cover_of req = Some cover ->
  Js.startsWith (mimetype cover) "image/" = true ->
  document_of req = Some doc ->
  mimetype doc = "application/pdf" ->
  let id := params_bookId req in
  let cp := updatePath env (filename cover) in
  let dp := updatePath env (filename doc) in
  cp ∈ fs w ->
  dp ∈ fs w ->
  dp <> cp ->
  let t1 := (trace w ++ [FindOne id; ExistsSync cp])%list in
  let t2 := (t1 ++ [Upload cp (coverOptions cover); Unlink cp;
                    ExistsSync dp])%list in
  let upd := updateDocument req book
               (secure_url env t1 cp (coverOptions cover))
               (secure_url env t2 dp (bookOptions doc)) in
  updateBook env req w
  = (Done (Json (BookBody (Some (apply_update env upd book)))),
     mkWorld (fs w ∖ {[cp]} ∖ {[dp]})
       (<[id := apply_update env upd book]> (db w))
       (t2 ++ [Upload dp (bookOptions doc); Unlink dp;
               FindOneAndUpdate id upd])).
Proof.
  intros Hnone Hdb Hauth Hc Himg Hd Hpdf id cp dp Hcp Hdp Hne t1 t2 upd.
  assert (H : Authorized env req w book) by (repeat split; auto).
  pose proof (updateBook_cover_runs env (req_files req) (looked_up req w)
                cover) as Hcover.
  rewrite first_file_cover in Hcover.
  specialize (Hcover Hc Himg Hcp (Hnone _ _) (Hnone _ _)).
  pose proof (updateBook_file_runs env (req_files req)
                (snd (updateBook_cover env (req_files req) (looked_up req w)))
                doc) as Hfile.
  rewrite first_file_document in Hfile. rewrite Hcover in Hfile.
  cbn [snd fs trace db] in Hfile.
  specialize (Hfile Hd Hpdf).
  assert (Hdp' : dp ∈ fs w ∖ {[cp]})
    by (rewrite elem_of_difference, elem_of_singleton; tauto).
  specialize (Hfile Hdp' (Hnone _ _) (Hnone _ _)).
  rewrite (updateBook_persists env req w _ _ book _ _ H Hcover Hfile).
  rewrite Hnone. cbn [looked_up record trace fs db].
  fold id cp dp. subst upd t2 t1. rewrite <- !app_assoc. cbn [app].
  reflexivity.
Qed.

Lemma updateBook_replaces_both_witness :
  fst (updateBook (Sample.env Sample.no_fault) Sample.patch_by_owner
         Sample.shelf)
  = Done (Json (BookBody
                  (Some {| book_id := "6611a0f2c3";
                           book_title := "Dune (2nd ed.)";
                           book_description := "...";
                           book_genre := "SciFi";
                           book_author := "u1";
                           book_coverImage := Sample.cover_url;
                           book_file := book_file Sample.stored |})))
  /\ fs (snd (updateBook (Sample.env Sample.no_fault) Sample.patch_by_owner
                Sample.shelf))
     = ∅.
Proof.
  rewrite (updateBook_replaces_both (Sample.env Sample.no_fault)
             Sample.patch_by_owner Sample.shelf Sample.stored
             Sample.cover Sample.document);
    try reflexivity; try discriminate.
  split; [reflexivity|]. vm_compute. reflexivity.
Defined.

Lemma updateBook_persist_failure_witness :
  Authorized (Sample.env Scenario.updates_throw) Sample.patch_by_owner
    Sample.shelf Sample.stored
  /\ fst (updateBook (Sample.env Scenario.updates_throw)
            Sample.patch_by_owner Sample.shelf)
     = Done (NextError 500
               "Error while updating the book: connection timed out")
  /\ db (snd (updateBook (Sample.env Scenario.updates_throw)
                Sample.patch_by_owner Sample.shelf))
     = db Sample.shelf.
Proof.
  assert (Ha : Authorized (Sample.env Scenario.updates_throw)
                 Sample.patch_by_owner Sample.shelf Sample.stored)
    by (repeat split).
  split; [exact Ha|].
  set (r1 := updateBook_cover (Sample.env Scenario.updates_throw)
               (req_files Sample.patch_by_owner)
               (looked_up Sample.patch_by_owner Sample.shelf)).
  assert (H1 : r1 = (Val Sample.cover_url, snd r1))
    by (vm_compute; reflexivity).
  set (r2 := updateBook_file (Sample.env Scenario.updates_throw)
               (req_files Sample.patch_by_owner) (snd r1)).
  assert (H2 : r2 = (Val Scenario.document_url, snd r2))
    by (vm_compute; reflexivity).
  rewrite (updateBook_persist_failure (Sample.env Scenario.updates_throw)
             Sample.patch_by_owner Sample.shelf (snd r1) (snd r2)
             Sample.stored Sample.cover_url Scenario.document_url
             Scenario.disconnected Ha H1 H2 eq_refl).
  split; reflexivity.
Defined.

(** X12. In an [updateBook] request of the record's author, a replacement
    file that is not on disk under its staged name is reported as a 400
    error right after the existence check, before its upload: for the cover
    nothing has been uploaded at all, for the document nothing after the
    cover block. The catalog is as before. *)
Theorem updateBook_staged_file_missing
    (env : Env) (req : Request) (w : World) (book : Book) :
  Authorized env req w book ->
  (forall cover,
     cover_of req = Some cover ->
     Js.startsWith (mimetype cover) "image/" = true ->
     let cp := updatePath env (filename cover) in
     cp ∉ fs w ->
     updateBook env req w
     = (Done (NextError 400 "Cover image file not found on server"),
        mkWorld (fs w) (db w)
          (trace w ++ [FindOne (params_bookId req); ExistsSync cp])))
  /\ (forall doc url w1,
        updateBook_cover env (req_files req) (looked_up req w) = (Val url, w1) ->
        document_of req = Some doc ->
        mimetype doc = "application/pdf" ->
        let dp := updatePath env (filename doc) in
        dp ∉ fs w1 ->
        updateBook env req w
        = (Done (NextError 400 "Book file not found on server"),
           mkWorld (fs w1) (db w) (trace w1 ++ [ExistsSync dp]))).
Proof.
  intros H. split.
  - intros cover Hc Himg cp Hout. enter_update H.
    unfold updateBook_cover. rewrite first_file_cover, Hc, Himg.
    cbn [negb]. rewrite bind_run. unfold existsSync at 1.
    cbn [fs record]. fold cp. rewrite bool_decide_eq_false_2 by assumption.
    unfold record. cbn. rewrite <- !app_assoc. reflexivity.
  - intros doc url w1 Hcover Hd Hpdf dp Hout.
    destruct (updateBook_cover_no_catalog_write _ _ _ _ _ Hcover)
      as [Hdb1 _].
    enter_update H. fold (looked_up req w). rewrite Hcover.
    rewrite bind_run. unfold updateBook_file.
    rewrite first_file_document, Hd, Hpdf, String.eqb_refl.
    cbn [negb]. rewrite bind_run. unfold existsSync at 1.
    fold dp. rewrite bool_decide_eq_false_2 by assumption.
    unfold record. cbn. rewrite Hdb1. reflexivity.
Qed.

Lemma updateBook_staged_file_missing_witness :
  Authorized (Sample.env Sample.no_fault) Sample.patch_by_owner
    Scenario.nothing_staged Sample.stored
  /\ updateBook (Sample.env Sample.no_fault) Sample.patch_by_owner
       Scenario.nothing_staged
     = (Done (NextError 400 "Cover image file not found on server"),
        mkWorld ∅ (db Sample.shelf)
          [FindOne (book_id Sample.stored);
           ExistsSync Sample.newCoverPath]).
Proof.
  assert (Ha : Authorized (Sample.env Sample.no_fault) Sample.patch_by_owner
                 Scenario.nothing_staged Sample.stored)
    by (repeat split).
  split; [exact Ha|].
  destruct (updateBook_staged_file_missing (Sample.env Sample.no_fault)
              Sample.patch_by_owner Scenario.nothing_staged Sample.stored Ha)
    as [Hcover _].
  apply (Hcover Sample.cover eq_refl eq_refl).
  apply not_elem_of_empty.
Defined.

(** ** [deleteBook]: the catalog refuses the deletion *)

(** X14. In a [deleteBook] request of the record's author, when both remote
    deletions succeed and [deleteOne] then throws, the request is completed
    with the 500 error "Error while deleting book: " followed by the message
    of the thrown error: the record stays in the catalog although the two
    remote objects its URLs point to have been destroyed. *)
Theorem deleteBook_catalog_failure
    (env : Env) (req : Request) (w : World) (book : Book) (err : Js.Error) :
  Authorized env req w book ->
  let id := params_bookId req in
  let img := Destroy (coverImagePublicId (book_coverImage book)) None in
  let raw := Destroy (bookFilePublicId (book_file book)) (Some "raw") in
  fault env (trace w ++ [FindOne id]) img = None ->
  fault env (trace w ++ [FindOne id; img]) raw = None ->
  fault env (trace w ++ [FindOne id; img; raw]) (DeleteOne id) = Some err ->
  deleteBook env req w
  = (Done (NextError 500
             ("Error while deleting book: " +:+ Js.to_str (Js.message err))),
     mkWorld (fs w) (db w) (trace w ++ [FindOne id; img; raw; DeleteOne id]))
  /\ db w !! id = Some book.
Proof.
  intros [[Hfault Hdb] Hauth] id img raw F1 F2 F3.
  split; [|exact Hdb].
  unfold deleteBook. rewrite try_catch_run, bind_run.
  unfold bookModel_findOne at 1. fold id. fold id in Hfault, Hdb.
  rewrite Hfault, Hdb, Hauth, String.eqb_refl.
  cbv beta iota. cbn [negb]. rewrite bind_run, try_catch_run, bind_run.
  unfold cloudinary_destroy at 1. cbn [trace record]. fold img. rewrite F1.
  cbv beta iota. unfold cloudinary_destroy at 1. cbn [trace record].
  fold raw. rewrite <- !app_assoc. cbn [app]. rewrite F2.
  cbv beta iota. rewrite bind_run.
  unfold bookModel_deleteOne. cbn [trace record fs db].
  rewrite <- !app_assoc. cbn [app]. rewrite F3.
  unfold record. cbn. rewrite <- !app_assoc. reflexivity.
Qed.

Lemma deleteBook_catalog_failure_witness :
  Authorized (Sample.env Scenario.deletions_throw) Sample.remove Sample.shelf
    Sample.stored
  /\ fst (deleteBook (Sample.env Scenario.deletions_throw) Sample.remove
            Sample.shelf)
     = Done (NextError 500 "Error while deleting book: connection timed out")
  /\ remote_calls
       (trace (snd (deleteBook (Sample.env Scenario.deletions_throw)
                      Sample.remove Sample.shelf)))
     = [Destroy "book-covers/c0ffee" None;
        Destroy "book-pdfs/d0c5.pdf" (Some "raw")].
Proof.
  assert (Ha : Authorized (Sample.env Scenario.deletions_throw)
                 Sample.remove Sample.shelf Sample.stored)
    by (repeat split).
  split; [exact Ha|].
  destruct (deleteBook_catalog_failure
              (Sample.env Scenario.deletions_throw) Sample.remove
              Sample.shelf Sample.stored Scenario.disconnected Ha
              eq_refl eq_refl eq_refl)
    as [-> _].
  split; reflexivity.
Defined.

(** ** Requests one after the other *)

(** X15. Once a [deleteBook] request of the record's author has been
    answered 204 (which it is when [deleteOne] does not throw), a following
    [updateBook] or [deleteBook] request for the same identifier, whoever
    makes it, is completed with the 404 error: the second request changes
    nothing and calls nothing but the lookup. *)
Theorem deleted_record_is_not_found
    (env : Env) (req req' : Request) (w : World) (book : Book) :
  Authorized env req w book ->
  (forall t, fault env t (DeleteOne (params_bookId req)) = None) ->
  params_bookId req' = params_bookId req ->
  let w1 := snd (deleteBook env req w) in
  fault env (trace w1) (FindOne (params_bookId req)) = None ->
  fst (deleteBook env req w) = Done (SendStatus 204)
  /\ updateBook env req' w1
     = (Done (NextError 404 "Book not found"), looked_up req' w1)
  /\ deleteBook env req' w1
     = (Done (NextError 404 "Book not found"), looked_up req' w1).
Proof.
  intros Ha Hdel Hid w1 Hfind.
  destruct (deleteBook_run env req w book Ha)
    as (o & w' & destroyed & Hrun & _ & _ & _ & _ & Hok).
  destruct (Hok (Hdel _)) as (-> & _ & Hgone).
  subst w1. rewrite Hrun in *. cbn [fst snd] in *.
  split; [reflexivity|].
  unfold updateBook, deleteBook.
  rewrite !try_catch_run, !bind_run. unfold bookModel_findOne.
  rewrite Hid, Hfind, Hgone. unfold looked_up. rewrite Hid.
  split; reflexivity.
Qed.

Lemma deleted_record_is_not_found_witness :
  Authorized (Sample.env Sample.no_fault) Sample.remove Sample.shelf
    Sample.stored
  /\ fst (deleteBook (Sample.env Sample.no_fault) Sample.remove
            (snd (deleteBook (Sample.env Sample.no_fault) Sample.remove
                    Sample.shelf)))
     = Done (NextError 404 "Book not found").
Proof.
  assert (Ha : Authorized (Sample.env Sample.no_fault) Sample.remove
                 Sample.shelf Sample.stored)
    by (repeat split).
  split; [exact Ha|].
  destruct (deleted_record_is_not_found (Sample.env Sample.no_fault)
              Sample.remove Sample.remove Sample.shelf Sample.stored Ha)
    as (_ & _ & ->); reflexivity.
Defined.

(** X16. After a successful [createBook], an [updateBook] or [deleteBook]
    request for the new record by anybody but its creator is completed with
    the 403 error, and the record the creation stored is still in the
    catalog. *)
Theorem created_record_is_owned
    (env : Env) (req req' : Request) (w : World) (cover doc : MulterFile) :
  Validated env req w cover doc ->
  TrySucceeds env req cover doc (checked env cover doc w) ->
  let t0 := checked env cover doc w in
  let fields := newRecord env req cover doc t0 in
  let id := new_id env (t0 ++ [coverUpload env cover; documentUpload env doc])
              fields in
  let w1 := snd (createBook env req w) in
  params_bookId req' = id ->
  userId req' <> userId req ->
  fault env (trace w1) (FindOne id) = None ->
  updateBook env req' w1
  = (Done (NextError 403 "You can not update others book."),
     looked_up req' w1)
  /\ deleteBook env req' w1
     = (Done (NextError 403 "You can not delete others book."),
        looked_up req' w1)
  /\ db (looked_up req' w1) !! id = Some (mkBook id fields).
Proof.
  intros Hv Hs t0 fields id w1 Hid Huser Hfind.
  destruct (createBook_success_run env req w cover doc Hv Hs)
    as (w' & cleanup & Hrun & Hdb & _).
  fold t0 fields id in Hrun, Hdb.
  subst w1. rewrite Hrun in *. cbn [snd] in *.
  assert (Hbook : db w' !! id = Some (mkBook id fields))
    by (rewrite Hdb; apply lookup_insert_eq).
  unfold updateBook, deleteBook.
  rewrite !try_catch_run, !bind_run. unfold bookModel_findOne.
  rewrite Hid, Hfind, Hbook. cbn [mkBook book_author].
  assert (Hne : new_author fields <> userId req')
    by (cbn; congruence).
  rewrite (eqb_author_mismatch _ _ Hne).
  unfold looked_up. rewrite Hid. repeat split. exact Hbook.
Qed.

Lemma created_record_is_owned_witness :
  Validated (Sample.env Sample.no_fault) Sample.dune Sample.staged
    Sample.cover Sample.document
  /\ fst (deleteBook (Sample.env Sample.no_fault) Scenario.remove_by_other
            (snd (createBook (Sample.env Sample.no_fault) Sample.dune
                    Sample.staged)))
     = Done (NextError 403 "You can not delete others book.").
Proof.
  assert (Hv : Validated (Sample.env Sample.no_fault) Sample.dune
                 Sample.staged Sample.cover Sample.document)
    by (repeat split; vm_compute; reflexivity).
  split; [exact Hv|].
  destruct (created_record_is_owned (Sample.env Sample.no_fault)
              Sample.dune Scenario.remove_by_other Sample.staged
              Sample.cover Sample.document Hv)
    as (_ & -> & _).
  - repeat split.
  - reflexivity.
  - discriminate.
  - reflexivity.
  - reflexivity.
Defined.

(** ** Public identifiers of URLs outside the expected shape *)

Lemma at_singleton {A} (a : A) :
  Js.at_ [a] (-1) = Some a /\ Js.at_ [a] (-2) = None.
Proof. split; reflexivity. Qed.

(** X17. For a cover URL [.../<folder>/<last>] whose last segment has no
    dot (no extension), the identifier that [deleteBook] derives is
    [<folder>/undefined]: the name is lost. *)
Theorem coverImagePublicId_no_extension (base folder last : string) :
  free_of "/" folder = true ->
  free_of "/" last = true ->
  free_of "." last = true ->
  coverImagePublicId (base +:+ "/" +:+ folder +:+ "/" +:+ last)
  = folder +:+ "/undefined".
Proof.
  intros Hf Hl Hdot. unfold coverImagePublicId.
  destruct (split_last_two base folder last Hf Hl) as [l ->].
  destruct (at_last_two l folder last) as [-> ->].
  simpl. rewrite (split_free _ _ Hdot). reflexivity.
Qed.

Lemma coverImagePublicId_no_extension_witness :
  coverImagePublicId
    "https://res.cloudinary.com/demo/image/upload/v1712/book-covers/c0ffee"
  = "book-covers/undefined".
Proof.
  apply (coverImagePublicId_no_extension
           "https://res.cloudinary.com/demo/image/upload/v1712"
           "book-covers" "c0ffee");
    reflexivity.
Defined.

(** X18. For a cover URL [.../<folder>/<front>.<name>.<ext>] the identifier
    that [deleteBook] derives is [<folder>/<name>]: of a file name with
    several dots only the piece just before the extension is kept. *)
Theorem coverImagePublicId_keeps_last_piece
    (base folder front name ext : string) :
  free_of "/" folder = true ->
  free_of "/" front = true ->
  free_of "/" name = true -> free_of "." name = true ->
  free_of "/" ext = true -> free_of "." ext = true ->
  coverImagePublicId
    (base +:+ "/" +:+ folder +:+ "/" +:+ front +:+ "." +:+ name
     +:+ "." +:+ ext)
  = folder +:+ "/" +:+ name.
Proof.
  intros Hf Hfr Hn1 Hn2 He1 He2. unfold coverImagePublicId.
  destruct (split_last_two base folder
              (front +:+ "." +:+ name +:+ "." +:+ ext) Hf)
    as [l ->].
  { apply free_of_app; [exact Hfr|].
    change ("." +:+ name +:+ "." +:+ ext)
      with (String "." (name +:+ String "." ext)).
    simpl. apply free_of_app; [exact Hn1|]. simpl. exact He1. }
  destruct (at_last_two l folder (front +:+ "." +:+ name +:+ "." +:+ ext))
    as [-> ->].
  simpl.
  change ("." +:+ name +:+ "." +:+ ext)
    with (String "." (name +:+ String "." ext)).
  rewrite !split_app, (split_free _ _ Hn2), (split_free _ _ He2).
  change ([name] ++ [ext])%list with [name; ext].
  destruct (at_last_two (Js.split "." front) name ext) as [-> _].
  reflexivity.
Qed.

Lemma coverImagePublicId_keeps_last_piece_witness :
  coverImagePublicId
    "https://res.cloudinary.com/demo/image/upload/v1712/book-covers/dune.part1.jpg"
  = "book-covers/part1".
Proof.
  apply (coverImagePublicId_keeps_last_piece
           "https://res.cloudinary.com/demo/image/upload/v1712"
           "book-covers" "dune" "part1" "jpg");
    reflexivity.
Defined.

(** X19. For a stored file URL without any ["/"], the identifier that
    [deleteBook] derives is ["undefined/"] followed by the whole URL. *)
Theorem bookFilePublicId_no_folder (url : string) :
  free_of "/" url = true ->
  bookFilePublicId url = "undefined/" +:+ url.
Proof.
  intros H. unfold bookFilePublicId. rewrite (split_free _ _ H).
  reflexivity.
Qed.

Lemma bookFilePublicId_no_folder_witness :
  bookFilePublicId "d0c5.pdf" = "undefined/d0c5.pdf".
Proof. apply bookFilePublicId_no_folder. reflexivity. Defined.

(** ** The format asked for a cover *)

Lemma split_pieces_free (c : ascii) (s : string) :
  Forall (fun x => free_of c x = true) (Js.split c s).
Proof.
  induction s as [|x s IH]; simpl.
  - repeat constructor.
  - destruct (Ascii.eqb x c) eqn:Hx.
    + constructor; [reflexivity | exact IH].
    + destruct (Js.split c s) as [|y l]; [repeat constructor; simpl|].
      * rewrite Hx. reflexivity.
      * inversion IH as [|? ? Hy Hl]; subst.
        constructor; [|exact Hl]. simpl. rewrite Hx, Hy. reflexivity.
Qed.

Lemma at_last_of_nonempty {A} (l : list A) :
  l <> [] -> exists x, Js.at_ l (-1) = Some x /\ In x l.
Proof.
  intros Hne. destruct (exists_last Hne) as (l' & x & ->).
  exists x. split; [|apply in_or_app; right; left; reflexivity].
  unfold Js.at_. rewrite length_app. cbn [length].
  rewrite Nat2Z.inj_add. change (Z.of_nat 1) with 1. cbn [Z.ltb Z.compare].
  replace (Z.of_nat (length l') + 1 + -1) with (Z.of_nat (length l')) by lia.
  destruct (Z.ltb_spec (Z.of_nat (length l')) 0); [lia|].
  destruct (Z.leb_spec (Z.of_nat (length l') + 1) (Z.of_nat (length l')));
    [lia|].
  cbn [orb]. rewrite Nat2Z.id.
  rewrite nth_error_app2 by lia. rewrite Nat.sub_diag. reflexivity.
Qed.

(** X20. The format that [createBook] and [updateBook] ask the remote store
    for a cover is always defined and holds no ["/"]: it is the last
    ["/"]-separated piece of the declared content type. For a content type
    [image/<sub>] with no further ["/"] it is [<sub>]. *)
Theorem cover_format_is_subtype (f : MulterFile) :
  (exists s, format (coverOptions f) = Some s /\ free_of "/" s = true)
  /\ (forall sub,
        mimetype f = "image/" +:+ sub ->
        free_of "/" sub = true ->
        format (coverOptions f) = Some sub).
Proof.
  unfold coverOptions. cbn [format]. split.
  - destruct (at_last_of_nonempty (Js.split "/" (mimetype f))
                (split_nonempty _ _))
      as (s & Hs & Hin).
    exists s. split; [exact Hs|].
    pose proof (split_pieces_free "/" (mimetype f)) as Hall.
    rewrite List.Forall_forall in Hall. apply Hall, Hin.
  - intros sub -> Hsub.
    change ("image/" +:+ sub) with ("image" +:+ String "/" sub).
    rewrite split_app, (split_free _ _ Hsub). reflexivity.
Qed.

Lemma cover_format_is_subtype_witness :
  format (coverOptions {| filename := "c0ffee"; mimetype := "image/svg+xml" |})
  = Some "svg+xml".
Proof.
  apply (cover_format_is_subtype
           {| filename := "c0ffee"; mimetype := "image/svg+xml" |});
    reflexivity.
Defined.
